(** * insta_hunter (Hunter_v7): a shallow embedding of the acquisition,
      qualification and expansion core, and the properties checked on it.

    Source files embedded here:
    - [hunter_v7.py]         : [UserProfile], [ProxyManager]
    - [hunter_core.py]       : [LocationValidator], [BioAnalyzer],
                               [ProfileFilter], [SessionManager]
    - [scraper_engine.py]    : [ScrapingEngine.parse_count],
                               [ScrapingEngine.get_followers]
    - [utilities.py]         : [ProfileValidator]
    - [main_orchestrator.py] : [HunterOrchestrator]

    Conventions.  Python [str] is [string] (a sequence of 8-bit characters;
    [lower] acts on ASCII letters only), Python [int] is [Z], Python [float]
    is IEEE-754 binary64 given by the standard library's [spec_float]
    operations at precision 53, a Python [set] of strings is a [gset string],
    a [list] is a [list].  A call that may raise returns a [result]. *)

From Stdlib Require Import ZArith String Ascii List Bool Lia.
From Stdlib Require Import DecimalString DecimalPos.
From Stdlib Require Floats.SpecFloat.
From stdpp Require Import base decidable option list gmap strings.

Import ListNotations.
#[local] Open Scope string_scope.
#[local] Open Scope list_scope.
#[local] Open Scope Z_scope.

(** ** Python primitives *)

Module Py.

(** Exceptions that the embedded code can raise or let through. *)
Inductive exn : Type :=
| ValueError
| TypeError
| OverflowError
| IndexError.

(** Outcome of a call: a value, or an exception on its way up. *)
Inductive result (A : Type) : Type :=
| Returns (a : A)
| Raises (e : exn).
Arguments Returns {A} a.
Arguments Raises {A} e.

Definition bind {A B} (r : result A) (k : A -> result B) : result B :=
  match r with
  | Returns a => k a
  | Raises e => Raises e
  end.

(** *** [float]: IEEE-754 binary64 *)

Definition float : Type := SpecFloat.spec_float.
Definition prec : Z := 53.
Definition emax : Z := 1024.

Definition fmul : float -> float -> float := SpecFloat.SFmul prec emax.
(** [x < y] and [x <= y] on floats (false as soon as one side is NaN). *)
Definition fltb : float -> float -> bool := SpecFloat.SFltb.
Definition fleb : float -> float -> bool := SpecFloat.SFleb.

(** The float nearest to [(-1)^neg * d * 10^e] (ties to even), which is what
    [float(str)] yields for a decimal numeral. *)
Definition float_of_decimal (neg : bool) (d : Z) (e : Z) : float :=
  match d with
  | Zpos m =>
      if 0 <=? e
      then SpecFloat.binary_round prec emax neg (m * Z.to_pos (10 ^ e)) 0
      else
        let '(q, e', l) :=
          SpecFloat.SFdiv_core_binary prec emax (Zpos m) 0 (10 ^ (- e)) 0 in
        SpecFloat.binary_round_aux prec emax neg q e' l
  | _ => SpecFloat.S754_zero neg
  end.

(** [float(n)] for an [int] small enough not to overflow. *)
Definition float_of_int (n : Z) : float :=
  SpecFloat.binary_normalize prec emax n 0 false.

(** [int(x)] for a float: truncation toward zero; [OverflowError] on an
    infinity and [ValueError] on a NaN. *)
Definition int_of_float (x : float) : result Z :=
  match x with
  | SpecFloat.S754_zero _ => Returns 0
  | SpecFloat.S754_infinity _ => Raises OverflowError
  | SpecFloat.S754_nan => Raises ValueError
  | SpecFloat.S754_finite s m e =>
      let v := if 0 <=? e then Zpos m * 2 ^ e else Zpos m / 2 ^ (- e) in
      Returns (if s then - v else v)
  end.

(** *** Numerals *)

(** [c.lower()] for one character: ASCII upper-case letters only. *)
Definition lower_ascii (c : ascii) : ascii :=
  let n := nat_of_ascii c in
  if (65 <=? n)%nat && (n <=? 90)%nat then ascii_of_nat (n + 32) else c.

(** [s.lower()] *)
Fixpoint lower (s : string) : string :=
  match s with
  | EmptyString => EmptyString
  | String c s' => String (lower_ascii c) (lower s')
  end.


Definition is_space (c : ascii) : bool :=
  let n := nat_of_ascii c in
  ((9 <=? n)%nat && (n <=? 13)%nat) || ((28 <=? n)%nat && (n <=? 32)%nat).

Definition digit_of (c : ascii) : option Z :=
  let n := nat_of_ascii c in
  if (48 <=? n)%nat && (n <=? 57)%nat then Some (Z.of_nat (n - 48)) else None.

Fixpoint lstrip (s : string) : string :=
  match s with
  | String c s' => if is_space c then lstrip s' else s
  | EmptyString => EmptyString
  end.

Fixpoint rstrip (s : string) : string :=
  match s with
  | EmptyString => EmptyString
  | String c s' =>
      match rstrip s' with
      | EmptyString => if is_space c then EmptyString else String c EmptyString
      | r => String c r
      end
  end.

(** [s.strip()] *)
Definition strip (s : string) : string := lstrip (rstrip s).

(** A run of decimal digits in which single underscores may separate two
    digits ([digitpart] of the Python grammar), read greedily: the digits
    read, most significant first, and the rest of the input. *)
Fixpoint digitpart (s : string) : list Z * string :=
  match s with
  | String c s' =>
      match digit_of c with
      | Some d =>
          match s' with
          | String "_" (String c2 _ as s'') =>
              match digit_of c2 with
              | Some _ => let '(ds, r) := digitpart s'' in (d :: ds, r)
              | None => ([d], s')
              end
          | _ => let '(ds, r) := digitpart s' in (d :: ds, r)
          end
      | None => ([], s)
      end
  | EmptyString => ([], EmptyString)
  end.

Definition number_of (ds : list Z) : Z := fold_left (fun acc d => 10 * acc + d) ds 0.

(** An optional sign: whether it is a minus, and the rest of the input. *)
Definition sign_of (s : string) : bool * string :=
  match s with
  | String "-" r => (true, r)
  | String "+" r => (false, r)
  | _ => (false, s)
  end.

(** [int(s)] for a string, base 10. *)
Definition int_of_str (s : string) : result Z :=
  let '(neg, r) := sign_of (strip s) in
  match digitpart r with
  | ((_ :: _) as ds, EmptyString) =>
      Returns (if neg then - number_of ds else number_of ds)
  | _ => Raises ValueError
  end.

(** The exponent part of a float numeral, if any: [None] when malformed. *)
Definition exponent_of (s : string) : option Z :=
  match s with
  | EmptyString => Some 0
  | String c r =>
      if Ascii.eqb c "e" || Ascii.eqb c "E" then
        let '(neg, r') := sign_of r in
        match digitpart r' with
        | ((_ :: _) as ds, EmptyString) =>
            Some (if neg then - number_of ds else number_of ds)
        | _ => None
        end
      else None
  end.

(** [float(s)] for a string. *)
Definition float_of_str (s : string) : result float :=
  let '(neg, r) := sign_of (strip s) in
  let w := lower r in
  if String.eqb w "inf" || String.eqb w "infinity"
  then Returns (SpecFloat.S754_infinity neg)
  else if String.eqb w "nan" then Returns SpecFloat.S754_nan
  else
    let '(ip, r1) := digitpart r in
    let '(fp, r2) :=
      match r1 with
      | String "." r1' => digitpart r1'
      | _ => ([], r1)
      end in
    match ip, fp with
    | [], [] => Raises ValueError
    | _, _ =>
        match exponent_of r2 with
        | Some e =>
            Returns (float_of_decimal neg (number_of (ip ++ fp))
                                      (e - Z.of_nat (length fp)))
        | None => Raises ValueError
        end
    end.

(** A float literal of the source text. *)
Definition float_lit (s : string) : float :=
  match float_of_str s with
  | Returns x => x
  | Raises _ => SpecFloat.S754_nan
  end.

(** [str(n)] and the [{n}] of an f-string, for an [int]. *)
Definition str_int (n : Z) : string := NilZero.string_of_int (Z.to_int n).

(** [s.startswith(p)] *)
Fixpoint startswith (p s : string) : bool :=
  match p, s with
  | EmptyString, _ => true
  | String _ _, EmptyString => false
  | String a p', String b s' => if Ascii.eqb a b then startswith p' s' else false
  end.

(** [needle in hay] for two strings: [needle] occurs as a contiguous run. *)
Fixpoint contains (needle hay : string) : bool :=
  startswith needle hay ||
  match hay with
  | EmptyString => false
  | String _ hay' => contains needle hay'
  end.

(** [s.endswith(p)] *)
Definition endswith (p s : string) : bool :=
  let n := String.length s in
  let k := String.length p in
  (k <=? n)%nat && String.eqb (String.substring (n - k) k s) p.

(** [s.replace(old, new)] for a one-character [old], the only form the
    embedded code uses. *)
Fixpoint replace_char (old : ascii) (new : string) (s : string) : string :=
  match s with
  | EmptyString => EmptyString
  | String c s' =>
      if Ascii.eqb c old then new +:+ replace_char old new s'
      else String c (replace_char old new s')
  end.

(** [s.split(sep)] for a one-character separator: always at least one
    field, empty fields kept. *)
Fixpoint split (sep : ascii) (s : string) : list string :=
  match s with
  | EmptyString => [EmptyString]
  | String c s' =>
      if Ascii.eqb c sep then EmptyString :: split sep s'
      else match split sep s' with
           | [] => [String c EmptyString]
           | f :: fs => String c f :: fs
           end
  end.

(** [sep.join(l)] *)
Definition join (sep : string) (l : list string) : string := String.concat sep l.

(** [any(k in text for k in keywords)] *)
Definition any_in (keywords : list string) (text : string) : bool :=
  existsb (fun k => contains k text) keywords.

(** [sum(1 for k in keywords if k in text)] *)
Definition count_in (keywords : list string) (text : string) : Z :=
  Z.of_nat (length (filter (fun k => contains k text = true) keywords)).

(** First keyword of the list that occurs in the text, as found by
    [for k in keywords: if k in text: return ...]. *)
Definition first_in (keywords : list string) (text : string) : option string :=
  List.find (fun k => contains k text) keywords.

End Py.

(** ** hunter_core.py : LocationValidator *)

Module LocationValidator.
Import Py.

Definition usa_keywords : list string :=
  [ "alabama"; "al"; "alaska"; "ak"; "arizona"; "az"; "arkansas"; "ar";
    "california"; "ca"; "colorado"; "co"; "connecticut"; "ct"; "delaware"; "de";
    "florida"; "fl"; "georgia"; "ga"; "hawaii"; "hi"; "idaho"; "id";
    "illinois"; "il"; "indiana"; "in"; "iowa"; "ia"; "kansas"; "ks";
    "kentucky"; "ky"; "louisiana"; "la"; "maine"; "me"; "maryland"; "md";
    "massachusetts"; "ma"; "michigan"; "mi"; "minnesota"; "mn"; "mississippi"; "ms";
    "missouri"; "mo"; "montana"; "mt"; "nebraska"; "ne"; "nevada"; "nv";
    "new hampshire"; "nh"; "new jersey"; "nj"; "new mexico"; "nm"; "new york"; "ny";
    "north carolina"; "nc"; "north dakota"; "nd"; "ohio"; "oh"; "oklahoma"; "ok";
    "oregon"; "or"; "pennsylvania"; "pa"; "rhode island"; "ri"; "south carolina"; "sc";
    "south dakota"; "sd"; "tennessee"; "tn"; "texas"; "tx"; "utah"; "ut";
    "vermont"; "vt"; "virginia"; "va"; "washington"; "wa"; "west virginia"; "wv";
    "wisconsin"; "wi"; "wyoming"; "wy";
    "new york city"; "nyc"; "los angeles"; "chicago"; "houston"; "phoenix";
    "philadelphia"; "san antonio"; "san diego"; "dallas"; "san jose"; "austin";
    "jacksonville"; "fort worth"; "columbus"; "charlotte"; "san francisco";
    "indianapolis"; "seattle"; "denver"; "washington dc"; "boston"; "nashville";
    "miami"; "atlanta"; "vegas"; "las vegas"; "detroit"; "portland"; "memphis";
    "usa"; "united states"; "america"; "us"; "american";
    "puerto rico"; "pr"; "guam"; "virgin islands"; "american samoa" ].

Definition non_usa_indicators : list string :=
  [ "uk"; "london"; "england"; "britain"; "canada"; "toronto"; "vancouver";
    "australia"; "sydney"; "melbourne"; "germany"; "berlin"; "france"; "paris";
    "italy"; "spain"; "mexico"; "brazil"; "india"; "mumbai"; "delhi";
    "japan"; "tokyo"; "china"; "beijing"; "russia"; "moscow" ].

Definition ambiguous_cities : list string :=
  [ "springfield"; "madison"; "franklin"; "georgetown"; "clinton" ].

(** [is_usa_location(bio, location_field)], returning [(is_usa, reason)]. *)
Definition is_usa_location (bio location_field : string) : bool * string :=
  let combined_text := lower (bio +:+ " " +:+ location_field) in
  match first_in non_usa_indicators combined_text with
  | Some indicator => (false, "Non-USA location detected: " +:+ indicator)
  | None =>
      let usa_matches :=
        filter (fun keyword => contains keyword combined_text = true) usa_keywords in
      match usa_matches with
      | _ :: _ =>
          (true, "USA location confirmed: " +:+ join ", " (take 3 usa_matches))
      | [] =>
          match first_in ambiguous_cities combined_text with
          | Some city =>
              if any_in usa_keywords combined_text
              then (true, "Ambiguous city (" +:+ city +:+ ") with USA context")
              else (false, "Ambiguous city (" +:+ city +:+ ") without USA context")
          | None => (false, "No clear USA location indicators found")
          end
      end
  end.

End LocationValidator.

(** ** hunter_v7.py : ProxyManager *)

Module ProxyManager.
Import Py.

(** The [Dict[str, str]] handed out for a proxy: [{}] is the empty list. *)
Definition proxy_dict : Type := list (string * string).

(** [d.get(key, default)] *)
Fixpoint dict_get (d : proxy_dict) (key default : string) : string :=
  match d with
  | [] => default
  | (k, v) :: d' => if String.eqb k key then v else dict_get d' key default
  end.

(** The mutable fields of a [ProxyManager]. *)
Record t : Type := mk {
  proxies : list string;
  current_proxy_index : nat;
  failed_proxies : gset string
}.

(** [format_proxy(proxy)] *)
Definition format_proxy (proxy : string) : proxy_dict :=
  match split ":" proxy with
  | ip :: port :: rest =>
      let proxy_url :=
        match rest with
        | username :: password :: _ =>
            "http://" +:+ username +:+ ":" +:+ password +:+ "@" +:+ ip +:+ ":" +:+ port
        | _ => "http://" +:+ ip +:+ ":" +:+ port
        end in
      [("http", proxy_url); ("https", proxy_url)]
  | _ => []
  end.

(** The [while attempts < len(self.proxies)] loop of [get_next_proxy];
    [remaining] is [len(self.proxies) - attempts].  The index is always
    reduced modulo the pool size, so the lookup [self.proxies[index]] only
    misses on a state whose index is already out of range, where Python
    raises [IndexError]. *)
Fixpoint get_next_proxy_loop (remaining : nat) (pm : t)
  : t * result (option proxy_dict) :=
  match remaining with
  | O => (pm, Returns None)
  | S remaining' =>
      match proxies pm !! current_proxy_index pm with
      | None => (pm, Raises IndexError)
      | Some proxy =>
          let pm' := mk (proxies pm)
                        ((current_proxy_index pm + 1) mod length (proxies pm))%nat
                        (failed_proxies pm) in
          if decide (proxy ∈ failed_proxies pm)
          then get_next_proxy_loop remaining' pm'
          else (pm', Returns (Some (format_proxy proxy)))
      end
  end.

(** [get_next_proxy()]: the new manager state and the returned
    [Optional[Dict[str, str]]]. *)
Definition get_next_proxy (pm : t) : t * result (option proxy_dict) :=
  match proxies pm with
  | [] => (pm, Returns None)
  | _ => get_next_proxy_loop (length (proxies pm)) pm
  end.

(** [mark_proxy_failed(proxy)] *)
Definition mark_proxy_failed (proxy : proxy_dict) (pm : t) : t :=
  match proxy with
  | [] => pm
  | _ =>
      let proxy_str := dict_get proxy "http" "" in
      mk (proxies pm) (current_proxy_index pm) ({[proxy_str]} ∪ failed_proxies pm)
  end.

(** [ProxyManager.__init__] after [load_proxies] has read the given lines. *)
Definition init (lines : list string) : t := mk lines 0 ∅.

End ProxyManager.

(** ** scraper_engine.py : ScrapingEngine.parse_count *)

Module ParseCount.
Import Py.

(** The body of the [try] block. *)
Definition parse_count_try (count_str : string) : result Z :=
  let count_str := replace_char " " "" (replace_char "," "" count_str) in
  if contains "K" count_str then
    bind (float_of_str (replace_char "K" "" count_str))
         (fun x => int_of_float (fmul x (float_of_int 1000)))
  else if contains "M" count_str then
    bind (float_of_str (replace_char "M" "" count_str))
         (fun x => int_of_float (fmul x (float_of_int 1000000)))
  else int_of_str count_str.

(** [parse_count(count_str)]: [except (ValueError, TypeError): return 0];
    any other exception goes through. *)
Definition parse_count (count_str : string) : result Z :=
  match parse_count_try count_str with
  | Raises ValueError | Raises TypeError => Returns 0
  | r => r
  end.

End ParseCount.

(** ** External libraries

    TextBlob, NLTK's VADER analyser and the [re] module are not part of the
    repository: they enter as parameters, and so does the [{x:.2f}] float
    formatting of f-strings.  An external call that raises gives [None]. *)

Record libraries : Type := {
  (** [TextBlob(text).detect_language()] *)
  textblob_detect_language : string -> option string;
  (** [SentimentIntensityAnalyzer().polarity_scores(text)['compound']] *)
  vader_compound : string -> option Py.float;
  (** [re.findall(pattern, text, re.IGNORECASE)] *)
  re_findall : string -> string -> list string;
  (** [f"{x:.2f}"] *)
  format_2f : Py.float -> string
}.

(** ** hunter_core.py : BioAnalyzer *)

Module BioAnalyzer.
Import Py.

(** The dictionary returned by [analyze_bio]. *)
Record analysis : Type := mk_analysis {
  language : string;
  sentiment : string;
  has_commercial_intent : bool;
  estimated_gender : string;
  age_indicators : list string;
  topics : list string
}.

(** The detector methods of the class, as they appear in a call trace. *)
Inductive detector : Type :=
| DetectLanguage | AnalyzeSentiment | DetectCommercialIntent
| EstimateGender | DetectAgeIndicators | ExtractTopics.

Section WithLibraries.
Context (L : libraries).

Definition english_words : list string :=
  ["the"; "and"; "or"; "but"; "in"; "on"; "at"; "to"; "for"; "with"].

(** [detect_language(text)] *)
Definition detect_language (text : string) : string :=
  match textblob_detect_language L text with
  | Some lang => lang
  | None =>
      let english_count := count_in english_words (lower text) in
      if 2 <? english_count then "en" else "unknown"
  end.

(** [analyze_sentiment(text)] *)
Definition analyze_sentiment (text : string) : string :=
  match vader_compound L text with
  | Some compound =>
      if fleb (float_lit "0.05") compound then "positive"
      else if fleb compound (float_lit "-0.05") then "negative"
      else "neutral"
  | None => "neutral"
  end.

Definition commercial_keywords : list string :=
  [ "link in bio"; "linktree"; "dm for collab"; "business inquiries";
    "sponsored"; "promo code"; "discount"; "shop now"; "buy now";
    "affiliate"; "partnership"; "brand ambassador"; "influencer";
    "onlyfans"; "premium"; "exclusive content"; "subscribe" ].

(** [detect_commercial_intent(bio)] *)
Definition detect_commercial_intent (bio : string) : bool :=
  any_in commercial_keywords (lower bio).

Definition female_indicators : list string :=
  [ "she/her"; "girl"; "woman"; "mom"; "mother"; "wife"; "daughter";
    "sister"; "queen"; "goddess"; "beauty"; "makeup"; "fashion" ].

Definition male_indicators : list string :=
  [ "he/him"; "guy"; "man"; "dad"; "father"; "husband"; "son";
    "brother"; "king"; "fitness"; "gym"; "sports" ].

(** [estimate_gender(bio)] *)
Definition estimate_gender (bio : string) : string :=
  let bio_lower := lower bio in
  let female_score := count_in female_indicators bio_lower in
  let male_score := count_in male_indicators bio_lower in
  if male_score <? female_score then "female"
  else if female_score <? male_score then "male"
  else "unknown".

Definition age_patterns : list string :=
  [ "\b(\d{2})\b"; "born in (\d{4})"; "class of (\d{4})" ].

(** [detect_age_indicators(bio)] *)
Definition detect_age_indicators (bio : string) : list string :=
  flat_map (fun pattern => re_findall L pattern bio) age_patterns.

Definition topic_keywords : list (string * list string) :=
  [ ("fitness", ["gym"; "workout"; "fitness"; "health"; "yoga"; "trainer"]);
    ("fashion", ["fashion"; "style"; "outfit"; "designer"; "model"]);
    ("food", ["food"; "cooking"; "chef"; "restaurant"; "recipe"]);
    ("travel", ["travel"; "adventure"; "explore"; "wanderlust"; "vacation"]);
    ("tech", ["tech"; "developer"; "coding"; "startup"; "innovation"]);
    ("art", ["art"; "artist"; "creative"; "design"; "photography"]);
    ("music", ["music"; "musician"; "singer"; "band"; "concert"]);
    ("business", ["entrepreneur"; "business"; "ceo"; "founder"; "startup"]) ].

(** [extract_topics(bio)] *)
Definition extract_topics (bio : string) : list string :=
  let bio_lower := lower bio in
  map fst (filter (fun tk => any_in (snd tk) bio_lower = true) topic_keywords).

(** The record returned for a falsy [bio]. *)
Definition default_analysis : analysis :=
  mk_analysis "unknown" "neutral" false "unknown" [] [].

(** [analyze_bio(bio)], together with the detector methods it has called,
    in call order. *)
Definition analyze_bio_traced (bio : string) : analysis * list detector :=
  match bio with
  | EmptyString => (default_analysis, [])
  | _ =>
      (mk_analysis (detect_language bio)
                   (analyze_sentiment bio)
                   (detect_commercial_intent bio)
                   (estimate_gender bio)
                   (detect_age_indicators bio)
                   (extract_topics bio),
       [ DetectLanguage; AnalyzeSentiment; DetectCommercialIntent;
         EstimateGender; DetectAgeIndicators; ExtractTopics ])
  end.

(** [analyze_bio(bio)] *)
Definition analyze_bio (bio : string) : analysis := fst (analyze_bio_traced bio).

End WithLibraries.
End BioAnalyzer.

(** ** Records scraped and configured *)

(** The [profile_data] dictionary built by [ScrapingEngine.get_profile_data]. *)
Record profile_data : Type := mk_profile_data {
  username : string;
  profile_url : string;
  follower_count : Z;
  following_count : Z;
  post_count : Z;
  bio : string;
  location : string;
  is_verified : bool;
  is_private : bool;
  profile_pic_url : string;
  has_active_story : bool;
  last_post_date : option string;
  engagement_rate : Py.float
}.

(** The [user_filters] dictionary built by [interactive_configuration]. *)
Record user_filters : Type := mk_user_filters {
  min_followers : Z;
  max_followers : Z;
  min_posts : Z;
  include_keywords : list string;
  exclude_keywords : list string;
  seed_hashtags : list string;
  max_depth : Z;
  max_profiles : Z
}.

(** ** hunter_core.py : ProfileFilter *)

Module ProfileFilter.
Import Py.

(** The filtering parameters that [__init__] reads from the [FILTERING]
    section of the configuration. *)
Record t : Type := mk {
  min_engagement_rate : float;
  max_engagement_rate : float;
  prefer_female : bool;
  require_profile_pic : bool;
  exclude_keywords : list string
}.

(** [[kw.strip().lower() for kw in raw.split(',')]] *)
Definition parse_exclude_keywords (raw : string) : list string :=
  map (fun kw => lower (strip kw)) (split "," raw).

Section WithLibraries.
Context (L : libraries).

Definition follower_reason (p : profile_data) (f : user_filters) : string :=
  "Follower count (" +:+ str_int (follower_count p) +:+ ") outside range "
    +:+ str_int (min_followers f) +:+ "-" +:+ str_int (max_followers f).

Definition engagement_reason (p : profile_data) : string :=
  "Engagement rate (" +:+ format_2f L (engagement_rate p)
    +:+ "%) outside normal range (possible bot)".

(** The last two steps of [should_target_profile]: gender preference and
    the success return. *)
Definition finish (self : t) (a : BioAnalyzer.analysis) (reasons : list string)
  : bool * string :=
  let reasons :=
    if prefer_female self && String.eqb (BioAnalyzer.estimated_gender a) "female"
    then reasons ++ ["Female profile (preferred)"]
    else if negb (String.eqb (BioAnalyzer.estimated_gender a) "unknown")
    then reasons ++ ["Gender: " +:+ BioAnalyzer.estimated_gender a]
    else reasons in
  (true, "All criteria met: " +:+ join "; " reasons).

(** [should_target_profile(profile_data, user_filters)], returning
    [(should_target, reason)]. *)
Definition should_target_profile (self : t) (p : profile_data) (f : user_filters)
  : bool * string :=
  if negb ((min_followers f <=? follower_count p)
           && (follower_count p <=? max_followers f))
  then (false, follower_reason p f)
  else if post_count p <? min_posts f
  then (false, "Post count (" +:+ str_int (post_count p) +:+ ") below minimum "
                 +:+ str_int (min_posts f))
  else if is_verified p then (false, "Verified account (excluded by preference)")
  else if is_private p then (false, "Private profile")
  else
    let '(is_usa, location_reason) :=
      LocationValidator.is_usa_location (bio p) (location p) in
    if negb is_usa then (false, "Location check failed: " +:+ location_reason)
    else
      let reasons := ["USA location: " +:+ location_reason] in
      if negb (has_active_story p) then (false, "No active story found")
      else
        let reasons := reasons ++ ["Active story confirmed"] in
        if require_profile_pic self && String.eqb (profile_pic_url p) ""
        then (false, "No profile picture")
        else
          let bio_analysis := BioAnalyzer.analyze_bio L (bio p) in
          let reasons :=
            if negb (String.eqb (BioAnalyzer.language bio_analysis) "en")
               && negb (String.eqb (BioAnalyzer.language bio_analysis) "unknown")
            then reasons ++ ["Bio language: " +:+ BioAnalyzer.language bio_analysis]
            else reasons in
          if BioAnalyzer.has_commercial_intent bio_analysis
          then (false, "Commercial intent detected in bio")
          else
            match first_in (exclude_keywords self) (lower (bio p)) with
            | Some keyword => (false, "Excluded keyword found: " +:+ keyword)
            | None =>
                if fltb (float_of_int 0) (engagement_rate p) then
                  if negb (fleb (min_engagement_rate self) (engagement_rate p)
                           && fleb (engagement_rate p) (max_engagement_rate self))
                  then (false, engagement_reason p)
                  else
                    finish self bio_analysis
                      (reasons ++ ["Normal engagement rate: "
                                     +:+ format_2f L (engagement_rate p) +:+ "%"])
                else finish self bio_analysis reasons
            end.

End WithLibraries.
End ProfileFilter.

(** ** utilities.py : ProfileValidator *)

Module ProfileValidator.
Import Py.

(** The [validation_result] dictionary. *)
Record validation_result : Type := mk_result {
  is_valid : bool;
  warnings : list string;
  errors : list string;
  quality_score : Z
}.

Definition suspicious_keywords : list string := ["bot"; "fake"; "spam"; "test account"].

(** [validate_profile_data(profile_data)] *)
Definition validate_profile_data (p : profile_data) : validation_result :=
  (* required fields: a field is missing when its value is falsy *)
  let missing :=
    (if String.eqb (username p) "" then ["username"] else []) ++
    (if follower_count p =? 0 then ["follower_count"] else []) ++
    (if post_count p =? 0 then ["post_count"] else []) ++
    (if String.eqb (bio p) "" then ["bio"] else []) in
  let errors := map (fun field => "Missing required field: " +:+ field) missing in
  let score := 100 - 20 * Z.of_nat (length missing) in
  (* follower count *)
  let '(w1, score) :=
    if follower_count p =? 0 then (["Zero follower count"], score - 10)
    else if 10000000 <? follower_count p
    then (["Unusually high follower count (possible celebrity)"], score - 5)
    else ([], score) in
  (* engagement rate *)
  let '(w2, score) :=
    if fltb (float_of_int 20) (engagement_rate p)
    then (["Very high engagement rate (possible bot activity)"], score - 15)
    else if fltb (engagement_rate p) (float_lit "0.1") && (1000 <? follower_count p)
    then (["Very low engagement rate (possible inactive account)"], score - 10)
    else ([], score) in
  (* bio content *)
  let '(w3, score) :=
    if (String.length (bio p) <? 10)%nat then (["Very short bio"], score - 5)
    else ([], score) in
  let '(w4, score) :=
    if any_in suspicious_keywords (lower (bio p))
    then (["Suspicious keywords in bio"], score - 10)
    else ([], score) in
  mk_result (match errors with [] => true | _ => false end)
            (w1 ++ w2 ++ w3 ++ w4) errors score.

End ProfileValidator.

(** ** hunter_v7.py : UserProfile *)

Module UserProfile.
Import Py.

(** The dataclass; none of its nineteen fields has a default value. *)
Record t : Type := mk {
  username : string;
  follower_count : Z;
  following_count : Z;
  post_count : Z;
  bio : string;
  profile_url : string;
  has_active_story : bool;
  location : string;
  is_verified : bool;
  is_private : bool;
  profile_pic_url : string;
  last_post_date : option string;
  engagement_rate : float;
  estimated_gender : string;
  bio_language : string;
  account_age_estimate : string;
  reason_for_selection : string;
  source_hvt : string;
  discovery_timestamp : string
}.

(** The keyword arguments of a constructor call: [None] for a keyword that
    the call does not pass. *)
Record kwargs : Type := mk_kwargs {
  kw_username : option string;
  kw_follower_count : option Z;
  kw_following_count : option Z;
  kw_post_count : option Z;
  kw_bio : option string;
  kw_profile_url : option string;
  kw_has_active_story : option bool;
  kw_location : option string;
  kw_is_verified : option bool;
  kw_is_private : option bool;
  kw_profile_pic_url : option string;
  kw_last_post_date : option (option string);
  kw_engagement_rate : option float;
  kw_estimated_gender : option string;
  kw_bio_language : option string;
  kw_account_age_estimate : option string;
  kw_reason_for_selection : option string;
  kw_source_hvt : option string;
  kw_discovery_timestamp : option string
}.

(** The generated [__init__]: every field is a required argument, and a
    call that leaves one out raises [TypeError]. *)
Definition init (k : kwargs) : result t :=
  match kw_username k, kw_follower_count k, kw_following_count k,
        kw_post_count k, kw_bio k, kw_profile_url k, kw_has_active_story k,
        kw_location k, kw_is_verified k, kw_is_private k with
  | Some a1, Some a2, Some a3, Some a4, Some a5, Some a6, Some a7,
    Some a8, Some a9, Some a10 =>
      match kw_profile_pic_url k, kw_last_post_date k, kw_engagement_rate k,
            kw_estimated_gender k, kw_bio_language k, kw_account_age_estimate k,
            kw_reason_for_selection k, kw_source_hvt k, kw_discovery_timestamp k with
      | Some a11, Some a12, Some a13, Some a14, Some a15, Some a16,
        Some a17, Some a18, Some a19 =>
          Returns (mk a1 a2 a3 a4 a5 a6 a7 a8 a9 a10 a11 a12 a13 a14 a15 a16 a17 a18 a19)
      | _, _, _, _, _, _, _, _, _ => Raises TypeError
      end
  | _, _, _, _, _, _, _, _, _, _ => Raises TypeError
  end.

End UserProfile.

(** ** hunter_core.py : SessionManager *)

Module SessionManager.

(** [session_data]: the in-memory dictionary.  [discovered_hvts] holds the
    [asdict] image of each profile, which has the fields of the dataclass. *)
Record session_data : Type := mk {
  seen_profiles : gset string;
  discovered_hvts : list UserProfile.t;
  current_depth : Z;
  processing_queue : list string;
  session_start : string;
  total_profiles_scanned : Z;
  errors_encountered : Z
}.

(** The JSON object kept in the session file: the same keys, with
    [seen_profiles] as an array.  [json.dump] and [json.load] are taken at
    the level of this value. *)
Record session_json : Type := mk_json {
  j_seen_profiles : list string;
  j_discovered_hvts : list UserProfile.t;
  j_current_depth : Z;
  j_processing_queue : list string;
  j_session_start : string;
  j_total_profiles_scanned : Z;
  j_errors_encountered : Z
}.

(** What [session_file] holds on disk. *)
Inductive file : Type :=
| Absent                       (* [os.path.exists] is false *)
| Unreadable                   (* [json.load] raises *)
| Json (j : session_json).

(** The dictionary of a fresh session; [now] is [datetime.now().isoformat()]. *)
Definition fresh (now : string) : session_data :=
  mk ∅ [] 0 [] now 0 0.

(** [load_session()] *)
Definition load_session (now : string) (f : file) : session_data :=
  match f with
  | Json j =>
      mk (list_to_set (j_seen_profiles j))
         (j_discovered_hvts j) (j_current_depth j) (j_processing_queue j)
         (j_session_start j) (j_total_profiles_scanned j) (j_errors_encountered j)
  | Absent | Unreadable => fresh now
  end.

(** The [session_copy] that [save_session] hands to [json.dump]. *)
Definition session_copy (s : session_data) : session_json :=
  mk_json (elements (seen_profiles s))
          (discovered_hvts s) (current_depth s) (processing_queue s)
          (session_start s) (total_profiles_scanned s) (errors_encountered s).

(** [save_session()] when the write goes through: the new file. *)
Definition save_session (s : session_data) : file := Json (session_copy s).

(** [add_seen_profile(username)] *)
Definition add_seen_profile (u : string) (s : session_data) : session_data :=
  mk ({[u]} ∪ seen_profiles s) (discovered_hvts s) (current_depth s)
     (processing_queue s) (session_start s) (total_profiles_scanned s)
     (errors_encountered s).

(** [is_profile_seen(username)] *)
Definition is_profile_seen (u : string) (s : session_data) : bool :=
  bool_decide (u ∈ seen_profiles s).

(** [add_hvt(hvt)] *)
Definition add_hvt (hvt : UserProfile.t) (s : session_data) : session_data :=
  mk (seen_profiles s) (discovered_hvts s ++ [hvt]) (current_depth s)
     (processing_queue s) (session_start s) (total_profiles_scanned s)
     (errors_encountered s).

(** [increment_scanned()] *)
Definition increment_scanned (s : session_data) : session_data :=
  mk (seen_profiles s) (discovered_hvts s) (current_depth s)
     (processing_queue s) (session_start s) (total_profiles_scanned s + 1)
     (errors_encountered s).

(** [increment_errors()] *)
Definition increment_errors (s : session_data) : session_data :=
  mk (seen_profiles s) (discovered_hvts s) (current_depth s)
     (processing_queue s) (session_start s) (total_profiles_scanned s)
     (errors_encountered s + 1).

End SessionManager.

(** ** main_orchestrator.py : HunterOrchestrator *)

Module HunterOrchestrator.
Import Py.

(** What a visit of a profile page gives [ScrapingEngine.get_profile_data]. *)
Inductive page : Type :=
| PageNotFound                     (* the "not found" marker: returns [None] *)
| PageError                        (* an exception: counted, returns [None] *)
| Page (attrs : profile_data).     (* the attributes read from the page *)

(** The platform, as the scraper sees it.  The first argument of
    [profile_page] and [followers_list] is the number of profile fetches
    made before the call, so an answer may change while the session runs. *)
Record web : Type := {
  (** [ScrapingEngine.get_profiles_from_hashtags(hashtags)] *)
  profiles_from_hashtags : list string -> list string;
  profile_page : nat -> string -> page;
  (** [ScrapingEngine.get_followers(username, limit=50)] *)
  followers_list : nat -> string -> list string
}.

(** The orchestrator: its [stats] counters, the stop flag, the session
    manager it owns, and the log of the usernames whose page was fetched
    (a history variable, oldest first). *)
Record t : Type := mk {
  should_stop : bool;
  total_profiles_scanned : Z;
  valid_profiles_processed : Z;
  hvts_found : Z;
  current_depth : Z;
  session : SessionManager.session_data;
  fetched : list string
}.

Definition with_session (o : t) (s : SessionManager.session_data) : t :=
  mk (should_stop o) (total_profiles_scanned o) (valid_profiles_processed o)
     (hvts_found o) (current_depth o) s (fetched o).

(** [__init__] followed by [initialize_system], which loads the session. *)
Definition init (now : string) (f : SessionManager.file) : t :=
  mk false 0 0 0 0 (SessionManager.load_session now f) [].

Section Workflow.
Context (L : libraries) (W : web).
Context (user : user_filters) (filtering : ProfileFilter.t).
(** [datetime.now().isoformat()] *)
Context (now : string).

(** [ScrapingEngine.get_profile_data(username)], with its effect on the
    session counters. *)
Definition get_profile_data (username : string) (o : t) : t * option profile_data :=
  let reply := profile_page W (length (fetched o)) username in
  let o := mk (should_stop o) (total_profiles_scanned o) (valid_profiles_processed o)
              (hvts_found o) (current_depth o) (session o) (fetched o ++ [username]) in
  match reply with
  | PageNotFound => (o, None)
  | PageError => (with_session o (SessionManager.increment_errors (session o)), None)
  | Page a =>
      (with_session o (SessionManager.increment_scanned (session o)),
       Some (mk_profile_data username
               ("https://www.instagram.com/" +:+ username +:+ "/")
               (follower_count a) (following_count a) (post_count a) (bio a)
               (location a) (is_verified a) (is_private a) (profile_pic_url a)
               (has_active_story a) (last_post_date a) (engagement_rate a)))
  end.

(** [validate_and_score_profile(profile_data)] *)
Definition validate_and_score_profile (p : profile_data) : bool * list string :=
  let validation_result := ProfileValidator.validate_profile_data p in
  if negb (ProfileValidator.is_valid validation_result)
  then (false, ProfileValidator.errors validation_result)
  else if ProfileValidator.quality_score validation_result <? 70
  then (true, ProfileValidator.warnings validation_result)
  else (true, []).

(** [process_single_profile(username, progress, task)] *)
Definition process_single_profile (username : string) (o : t) : t * option profile_data :=
  if SessionManager.is_profile_seen username (session o) then (o, None)
  else
    let '(o, profile_data) := get_profile_data username o in
    let o := mk (should_stop o) (total_profiles_scanned o + 1)
                (valid_profiles_processed o) (hvts_found o) (current_depth o)
                (SessionManager.add_seen_profile username (session o)) (fetched o) in
    match profile_data with
    | None => (o, None)
    | Some p =>
        if negb (fst (validate_and_score_profile p)) then (o, None)
        else
          (mk (should_stop o) (total_profiles_scanned o)
              (valid_profiles_processed o + 1) (hvts_found o) (current_depth o)
              (session o) (fetched o),
           Some p)
    end.

(** [apply_all_filters(profile_data)] *)
Definition apply_all_filters (p : profile_data) : bool * string :=
  let bio_lower := lower (bio p) in
  if match include_keywords user with [] => false | _ => true end
     && negb (existsb (fun k => contains (lower k) bio_lower) (include_keywords user))
  then (false, "Does not contain required keywords.")
  else
    match List.find (fun k => contains (lower k) bio_lower) (exclude_keywords user) with
    | Some k => (false, "Contains excluded keyword: " +:+ k)
    | None => ProfileFilter.should_target_profile L filtering p user
    end.

(** [create_hvt_profile(profile_data, reason, source)].  The constructor
    call passes seventeen keywords: [last_post_date] and
    [account_age_estimate] are not among them. *)
Definition create_hvt_profile (p : profile_data) (reason source : string)
  : result UserProfile.t :=
  let bio_analysis := BioAnalyzer.analyze_bio L (bio p) in
  UserProfile.init
    (UserProfile.mk_kwargs
       (Some (username p)) (Some (follower_count p)) (Some (following_count p))
       (Some (post_count p)) (Some (bio p)) (Some (profile_url p))
       (Some (has_active_story p)) (Some (location p)) (Some (is_verified p))
       (Some (is_private p)) (Some (profile_pic_url p))
       None
       (Some (engagement_rate p))
       (Some (BioAnalyzer.estimated_gender bio_analysis))
       (Some (BioAnalyzer.language bio_analysis))
       None
       (Some reason) (Some source) (Some now)).

(** What follows the stop and budget tests in the body of both scanning
    loops: fetch, qualify and, on acceptance, record the profile.  The
    result is the accepted profile, if any. *)
Definition examine (username source : string) (o : t)
  : t * result (option UserProfile.t) :=
  let '(o, profile_data) := process_single_profile username o in
  match profile_data with
  | None => (o, Returns None)
  | Some p =>
      let '(should_target, reason) := apply_all_filters p in
      if should_target then
        match create_hvt_profile p reason source with
        | Raises e => (o, Raises e)
        | Returns hvt =>
            (mk (should_stop o) (total_profiles_scanned o)
                (valid_profiles_processed o) (hvts_found o + 1) (current_depth o)
                (SessionManager.add_hvt hvt (session o)) (fetched o),
             Returns (Some hvt))
        end
      else (o, Returns None)
  end.

(** The [for username in seed_usernames] loop of [find_initial_hvts];
    [initial_hvts] is the list accumulated so far. *)
Fixpoint seed_loop (seed_usernames : list string) (initial_hvts : list UserProfile.t)
  (o : t) : t * result (list UserProfile.t) :=
  match seed_usernames with
  | [] => (o, Returns initial_hvts)
  | username :: rest =>
      if should_stop o then (o, Returns initial_hvts)
      else
        match examine username "initial_seed" o with
        | (o, Raises e) => (o, Raises e)
        | (o, Returns None) => seed_loop rest initial_hvts o
        | (o, Returns (Some hvt)) => seed_loop rest (initial_hvts ++ [hvt]) o
        end
  end.

(** [find_initial_hvts()] *)
Definition find_initial_hvts (o : t) : t * result (list UserProfile.t) :=
  match seed_hashtags user with
  | [] => (o, Returns [])
  | _ =>
      match profiles_from_hashtags W (seed_hashtags user) with
      | [] => (o, Returns [])
      | seed_usernames => seed_loop seed_usernames [] o
      end
  end.

(** The test that opens both loops of the expansion phase. *)
Definition stop_or_budget (o : t) : bool :=
  should_stop o || (max_profiles user <=? total_profiles_scanned o).

(** The [for follower_username in followers] loop; [found] collects the
    profiles accepted by it, in order. *)
Fixpoint follower_loop (followers : list string) (source : string)
  (found : list UserProfile.t) (o : t) : t * result (list UserProfile.t) :=
  match followers with
  | [] => (o, Returns found)
  | follower_username :: rest =>
      if stop_or_budget o then (o, Returns found)
      else
        match examine follower_username source o with
        | (o, Raises e) => (o, Raises e)
        | (o, Returns None) => follower_loop rest source found o
        | (o, Returns (Some new_hvt)) => follower_loop rest source (found ++ [new_hvt]) o
        end
  end.

(** The [for source_hvt in processing_queue] loop; [next_level_queue]
    is the queue built so far. *)
Fixpoint source_loop (processing_queue : list UserProfile.t)
  (next_level_queue : list UserProfile.t) (o : t) : t * result (list UserProfile.t) :=
  match processing_queue with
  | [] => (o, Returns next_level_queue)
  | source_hvt :: rest =>
      if stop_or_budget o then (o, Returns next_level_queue)
      else
        match followers_list W (length (fetched o)) (UserProfile.username source_hvt) with
        | [] => source_loop rest next_level_queue o
        | followers =>
            match follower_loop followers (UserProfile.username source_hvt) [] o with
            | (o, Raises e) => (o, Raises e)
            | (o, Returns found) => source_loop rest (next_level_queue ++ found) o
            end
        end
  end.

(** The [for depth in range(1, max_depth + 1)] loop; [levels] is the
    number of values of [depth] still to come. *)
Fixpoint depth_loop (levels : nat) (depth : Z)
  (processing_queue all_hvts : list UserProfile.t) (o : t)
  : t * result (list UserProfile.t) :=
  match levels with
  | O => (o, Returns all_hvts)
  | S levels' =>
      if match processing_queue with [] => true | _ => false end || should_stop o
      then (o, Returns all_hvts)
      else
        let o := mk (should_stop o) (total_profiles_scanned o)
                    (valid_profiles_processed o) (hvts_found o) depth
                    (session o) (fetched o) in
        match source_loop processing_queue [] o with
        | (o, Raises e) => (o, Raises e)
        | (o, Returns next_level_queue) =>
            depth_loop levels' (depth + 1) next_level_queue
                       (all_hvts ++ next_level_queue) o
        end
  end.

(** [recursive_follower_expansion(initial_hvts)] *)
Definition recursive_follower_expansion (initial_hvts : list UserProfile.t) (o : t)
  : t * result (list UserProfile.t) :=
  depth_loop (Z.to_nat (max_depth user)) 1 initial_hvts initial_hvts o.

(** The scanning part of [run_main_workflow]: both phases, then the
    [finally] clause, which saves the session whatever happened.  The
    result is the orchestrator at termination and the session file. *)
Definition run_main_workflow (o : t) : t * SessionManager.file :=
  let o :=
    match find_initial_hvts o with
    | (o, Raises _) => o
    | (o, Returns initial_hvts) =>
        match initial_hvts with
        | [] => if should_stop o then fst (recursive_follower_expansion [] o) else o
        | _ => fst (recursive_follower_expansion initial_hvts o)
        end
    end in
  (o, SessionManager.save_session (session o)).

End Workflow.
End HunterOrchestrator.

(** ** scraper_engine.py : ScrapingEngine.get_followers *)

Module GetFollowers.
Import Py.

(** What one pass of the [while] body meets in the followers dialog: the
    [href] attributes read before anything went wrong ([None] for an
    element without one), and whether the pass then raised, in which case
    the [except] clause leaves the loop. *)
Record pass : Type := {
  hrefs : list (option string);
  raised : bool
}.

(** The browser, as [get_followers] sees it: whether the profile page and
    its followers dialog open, and what the n-th scroll pass shows. *)
Record browser : Type := {
  dialog_opens : bool;
  scroll_pass : nat -> pass
}.

(** Followers expected on a scroll, the divisor of the source. *)
Definition per_scroll : Z := 12.

(** [href.split('/')[-2] if href.endswith('/') else href.split('/')[-1]] *)
Definition username_from_href (href : string) : string :=
  let parts := split "/" href in
  if endswith "/" href
  then nth (length parts - 2) parts ""
  else nth (length parts - 1) parts "".

(** The [for element in follower_elements] loop. *)
Fixpoint collect (elements : list (option string)) (followers : gset string)
  : gset string :=
  match elements with
  | [] => followers
  | None :: rest => collect rest followers
  | Some href :: rest =>
      if negb (String.eqb href "") && contains "instagram.com/" href then
        let username_from_href := username_from_href href in
        if negb (String.eqb username_from_href "")
        then collect rest ({[username_from_href]} ∪ followers)
        else collect rest followers
      else collect rest followers
  end.

(** State of the collection loop; [passes] counts the executions of the
    loop body (a history variable). *)
Record loop_state : Type := mk_loop {
  followers : gset string;
  scroll_attempts : Z;
  passes : nat
}.

Section WithBrowser.
Context (B : browser).

(** The [while len(followers) < limit and scroll_attempts <
    max_scroll_attempts] loop, run for at most [fuel] passes: [None] when
    the fuel runs out with the loop condition still true. *)
Fixpoint scroll_loop (fuel : nat) (limit max_scroll_attempts : Z) (st : loop_state)
  : option loop_state :=
  if (Z.of_nat (size (followers st)) <? limit)
     && (scroll_attempts st <? max_scroll_attempts)
  then
    match fuel with
    | O => None
    | S fuel' =>
        let p := scroll_pass B (passes st) in
        let followers := collect (hrefs p) (followers st) in
        if raised p
        then Some (mk_loop followers (scroll_attempts st) (S (passes st)))
        else scroll_loop fuel' limit max_scroll_attempts
               (mk_loop followers (scroll_attempts st + 1) (S (passes st)))
    end
  else Some st.

(** [l[:limit]] *)
Definition slice_to {A} (l : list A) (limit : Z) : list A :=
  if 0 <=? limit then take (Z.to_nat limit) l
  else take (Z.to_nat (Z.of_nat (length l) + limit)) l.

(** [get_followers(username, limit)] with [fuel] passes allowed: the
    final loop state ([None] when the dialog did not open) and the list
    returned.  The whole result is [None] when the fuel runs out. *)
Definition get_followers (fuel : nat) (limit : Z)
  : option (option loop_state * list string) :=
  if dialog_opens B then
    let max_scroll_attempts := limit / per_scroll in
    match scroll_loop fuel limit max_scroll_attempts (mk_loop ∅ 0 0) with
    | None => None
    | Some st => Some (Some st, slice_to (elements (followers st)) limit)
    end
  else Some (None, []).

End WithBrowser.
End GetFollowers.

(** ** scraper_engine.py : the counts read by get_profile_data *)

Module StatsExtraction.
Import Py.

(** [element.text.replace(',', '').replace('K', '000').replace('M', '000000')] *)
Definition stat_text (text : string) : string :=
  replace_char "M" "000000" (replace_char "K" "000" (replace_char "," "" text)).

(** [self.parse_count(text)] on the rewritten text of an element. *)
Definition read_stat (text : string) : result Z :=
  ParseCount.parse_count (stat_text text).

(** The three counts of [profile_data] that the loop assigns. *)
Record counts : Type := mk_counts {
  followers : Z;
  following : Z;
  posts : Z
}.

(** The [for element in stats_elements] loop: each element comes with
    its text and the text of its parent.  An exception leaves the loop (the
    enclosing [except] logs it) with the counts assigned so far. *)
Fixpoint extract_stats (elements : list (string * string)) (c : counts) : counts :=
  match elements with
  | [] => c
  | (text, parent) :: rest =>
      let parent_text := lower parent in
      if contains "follower" parent_text then
        match read_stat text with
        | Returns n => extract_stats rest (mk_counts n (following c) (posts c))
        | Raises _ => c
        end
      else if contains "following" parent_text then
        match read_stat text with
        | Returns n => extract_stats rest (mk_counts (followers c) n (posts c))
        | Raises _ => c
        end
      else if contains "post" parent_text then
        match read_stat text with
        | Returns n => extract_stats rest (mk_counts (followers c) (following c) n)
        | Raises _ => c
        end
      else extract_stats rest c
  end.

End StatsExtraction.

(** ** Sample inputs and invariants *)

(** External libraries that are out of reach: TextBlob and VADER raise,
    [re] finds nothing; used for closed examples, none of which prints a
    float. *)
Definition offline_libraries : libraries :=
  {| textblob_detect_language := fun _ => None;
     vader_compound := fun _ => None;
     re_findall := fun _ _ => [];
     format_2f := fun _ => "" |}.

(** The [FILTERING] section of the template configuration. *)
Definition template_filtering : ProfileFilter.t :=
  ProfileFilter.mk (Py.float_lit "0.5") (Py.float_lit "15.0") true true
    (ProfileFilter.parse_exclude_keywords
       "OnlyFans,escort,sugar daddy,cam girl,premium,link in bio").

(** The answers that [interactive_configuration] proposes by default, with
    the given keyword lists and budget. *)
Definition default_filters (include exclude : list string) (budget : Z) : user_filters :=
  mk_user_filters 1000 50000 50 include exclude
    ["usamoms"; "momlife"; "parenting"] 3 budget.

(** [p] with another engagement rate. *)
Definition with_engagement_rate (p : profile_data) (x : Py.float) : profile_data :=
  mk_profile_data (username p) (profile_url p) (follower_count p)
    (following_count p) (post_count p) (bio p) (location p) (is_verified p)
    (is_private p) (profile_pic_url p) (has_active_story p) (last_post_date p) x.

(** A candidate of the kind the specification describes: 5,000 followers,
    80 posts, an active story, a picture, a biography that names a USA
    place; [rate] is its engagement rate and [followers] its follower count. *)
Definition sample_profile (followers : Z) (biography : string) (rate : string) : profile_data :=
  mk_profile_data "sample" "https://www.instagram.com/sample/" followers 300 80
    biography "" false false "https://cdn.example/p.jpg" true None (Py.float_lit rate).

(** A platform on which the seed hashtags lead to two authors: the page
    of the first shows an account with 12 followers, the second is gone. *)
Definition two_seed_web : HunterOrchestrator.web :=
  {| HunterOrchestrator.profiles_from_hashtags := fun _ => ["alice"; "bob"];
     HunterOrchestrator.profile_page := fun _ u =>
       if String.eqb u "alice"
       then HunterOrchestrator.Page (sample_profile 12 "mom of 3 in Austin, Texas" "0.0")
       else HunterOrchestrator.PageNotFound;
     HunterOrchestrator.followers_list := fun _ _ => [] |}.

(** An accepted profile, as [asdict] would store it. *)
Definition sample_hvt : UserProfile.t :=
  UserProfile.mk "alice" 5000 300 80 "mom of 3 in Austin, Texas"
    "https://www.instagram.com/alice/" true "" false false
    "https://cdn.example/p.jpg" None (Py.float_lit "3.2") "female" "en" "unknown"
    "All criteria met" "initial_seed" "2026-01-01T00:00:00".

(** A dialog that opens and shows the same two followers on every pass. *)
Definition two_follower_browser : GetFollowers.browser :=
  {| GetFollowers.dialog_opens := true;
     GetFollowers.scroll_pass := fun _ =>
       {| GetFollowers.hrefs :=
            [ Some "https://www.instagram.com/carol/"; None;
              Some "https://www.instagram.com/dave" ];
          GetFollowers.raised := false |} |}.

(** *** Every page is fetched at most once in a session

    The invariant behind it: the fetch log has no repetition, whatever was
    fetched is in the seen set and was not in [seen0], the set of identifiers
    loaded at start, and the seen set only grows. *)
Definition fetch_once (seen0 : gset string) (o : HunterOrchestrator.t) : Prop :=
  NoDup (HunterOrchestrator.fetched o)
  /\ (forall u, u ∈ HunterOrchestrator.fetched o ->
        u ∈ SessionManager.seen_profiles (HunterOrchestrator.session o) /\ u ∉ seen0)
  /\ seen0 ⊆ SessionManager.seen_profiles (HunterOrchestrator.session o).

(** The ten tests of the chain of [should_target_profile], as one boolean. *)
Definition passes_all (L : libraries) (self : ProfileFilter.t) (p : profile_data)
  (f : user_filters) : bool :=
  (min_followers f <=? follower_count p) && (follower_count p <=? max_followers f)
  && negb (post_count p <? min_posts f)
  && negb (is_verified p)
  && negb (is_private p)
  && fst (LocationValidator.is_usa_location (bio p) (location p))
  && has_active_story p
  && negb (ProfileFilter.require_profile_pic self && String.eqb (profile_pic_url p) "")
  && negb (BioAnalyzer.has_commercial_intent (BioAnalyzer.analyze_bio L (bio p)))
  && negb (Py.any_in (ProfileFilter.exclude_keywords self) (Py.lower (bio p)))
  && (negb (Py.fltb (Py.float_of_int 0) (engagement_rate p))
      || (Py.fleb (ProfileFilter.min_engagement_rate self) (engagement_rate p)
          && Py.fleb (engagement_rate p) (ProfileFilter.max_engagement_rate self))).

(** What a stretch of scanning from [o] to [o'] has done: some pages were
    fetched, each counted once and marked seen; the accepted list, the
    accepted counter and the stop flag are as before. *)
Definition scanned_since (o o' : HunterOrchestrator.t) : Prop :=
  exists new : list string,
    HunterOrchestrator.fetched o' = HunterOrchestrator.fetched o ++ new
    /\ HunterOrchestrator.total_profiles_scanned o'
       = HunterOrchestrator.total_profiles_scanned o + Z.of_nat (length new)
    /\ SessionManager.seen_profiles (HunterOrchestrator.session o')
       = list_to_set new ∪ SessionManager.seen_profiles (HunterOrchestrator.session o)
    /\ SessionManager.discovered_hvts (HunterOrchestrator.session o')
       = SessionManager.discovered_hvts (HunterOrchestrator.session o)
    /\ HunterOrchestrator.hvts_found o' = HunterOrchestrator.hvts_found o
    /\ HunterOrchestrator.should_stop o' = HunterOrchestrator.should_stop o.

(** * Properties *)

(** ** Substring facts *)

Section Substrings.
Import Py.

Lemma startswith_app (p s : string) :
  startswith p s = true <-> exists r, s = p +:+ r.
Proof.
  revert s. induction p as [|a p IH]; intros s; simpl.
  - split; [intros _; exists s; reflexivity | reflexivity].
  - destruct s as [|b s].
    + split; [discriminate | intros [r Hr]; discriminate].
    + destruct (Ascii.eqb_spec a b) as [->|Hne].
      * rewrite IH. split; intros [r Hr]; exists r.
        -- rewrite Hr. reflexivity.
        -- simpl in Hr. injection Hr as Hr. exact Hr.
      * split; [discriminate | intros [r Hr]; simpl in Hr; injection Hr as Hb _;
                                 symmetry in Hb; contradiction].
Qed.

Lemma contains_app (n h : string) :
  contains n h = true <-> exists p r, h = p +:+ n +:+ r.
Proof.
  induction h as [|c h IH].
  - simpl. rewrite orb_false_r, startswith_app. split.
    + intros [r Hr]. exists "", r. exact Hr.
    + intros [p [r Hr]]. destruct p; [exists r; exact Hr | discriminate].
  - cbn [contains]. rewrite orb_true_iff, startswith_app, IH. split.
    + intros [[r Hr] | [p [r Hr]]].
      * exists "", r. exact Hr.
      * exists (String c p), r. simpl. rewrite Hr. reflexivity.
    + intros [p [r Hr]]. destruct p as [|c' p].
      * left. exists r. exact Hr.
      * right. exists p, r. simpl in Hr. injection Hr as _ Hr. exact Hr.
Qed.

Lemma string_app_assoc (a b c : string) : (a +:+ b) +:+ c = a +:+ (b +:+ c).
Proof.
  induction a as [|x a IH]; [reflexivity|].
  change (String x ((a +:+ b) +:+ c) = String x (a +:+ (b +:+ c))).
  rewrite IH. reflexivity.
Qed.

Lemma contains_trans (a b c : string) :
  contains a b = true -> contains b c = true -> contains a c = true.
Proof.
  rewrite !contains_app. intros [p [r ->]] [p' [r' ->]].
  exists (p' +:+ p), (r +:+ r'). rewrite !string_app_assoc. reflexivity.
Qed.

Lemma any_in_witness (keywords : list string) (k text : string) :
  In k keywords -> contains k text = true -> any_in keywords text = true.
Proof.
  intros Hin Hk. unfold any_in. apply existsb_exists. exists k. split; assumption.
Qed.

Lemma first_in_Some (keywords : list string) (text k : string) :
  first_in keywords text = Some k -> In k keywords /\ contains k text = true.
Proof.
  unfold first_in. intros H.
  destruct (List.find_some _ _ H) as [H1 H2]. split; [exact H1 | exact H2].
Qed.

End Substrings.

(** ** LocationValidator *)

Section LocationFacts.
Import Py LocationValidator.

(** Every city of the ambiguous list has a two-letter state code among
    its letters, so a text that names such a city always matches a USA
    keyword. *)
Lemma ambiguous_city_matches_usa (city text : string) :
  In city ambiguous_cities -> contains city text = true ->
  any_in usa_keywords text = true.
Proof.
  intros Hin Htext.
  assert (Hk : exists k, In k usa_keywords /\ contains k city = true).
  { simpl in Hin.
    destruct Hin as [<-|[<-|[<-|[<-|[<-|[]]]]]].
    - exists "in". split; [unfold usa_keywords; simpl; tauto | reflexivity].
    - exists "ma". split; [unfold usa_keywords; simpl; tauto | reflexivity].
    - exists "in". split; [unfold usa_keywords; simpl; tauto | reflexivity].
    - exists "or". split; [unfold usa_keywords; simpl; tauto | reflexivity].
    - exists "in". split; [unfold usa_keywords; simpl; tauto | reflexivity]. }
  destruct Hk as [k [Hk1 Hk2]].
  apply (any_in_witness _ k); [assumption|].
  eapply contains_trans; eassumption.
Qed.

(** The rejection "ambiguous city without USA context" is never returned. *)
Lemma without_usa_context_unreachable (bio location_field city : string) :
  is_usa_location bio location_field <>
  (false, "Ambiguous city (" +:+ city +:+ ") without USA context").
Proof.
  unfold is_usa_location.
  set (text := lower (bio +:+ " " +:+ location_field)).
  destruct (first_in non_usa_indicators text) as [ind|]; [discriminate|].
  destruct (filter _ usa_keywords) as [|m ms]; [|discriminate].
  destruct (first_in ambiguous_cities text) as [c|] eqn:Hc; [|discriminate].
  apply first_in_Some in Hc. destruct Hc as [Hin Hc].
  rewrite (ambiguous_city_matches_usa c text Hin Hc). discriminate.
Qed.

(** C4 (second half): with a state named next to it, the city is accepted. *)
Example springfield_illinois :
  is_usa_location "Springfield, Illinois" "" =
  (true, "USA location confirmed: illinois, il, in").
Proof. vm_compute. reflexivity. Qed.

End LocationFacts.

(** C4.  The biography "Springfield" alone is not rejected: the substring
    test finds the state codes "in", "ri" and "pr" inside the city name
    itself, so the detector confirms a USA location before the ambiguous-city
    branch is reached. *)
Theorem springfield_alone_is_accepted :
  LocationValidator.is_usa_location "Springfield" "" =
  (true, "USA location confirmed: in, ri, pr").
Proof. vm_compute. reflexivity. Qed.

(** ** ProxyManager *)

(** C7.  A proxy marked as failed is handed out again by the next
    selection.  [get_next_proxy] looks the raw pool line up in
    [failed_proxies], while [mark_proxy_failed] stores the formatted URL of
    the dictionary, so the membership test never succeeds: here the only
    proxy of the pool is returned, marked failed, and returned again. *)
Theorem failed_proxy_is_returned_again :
  let pm0 := ProxyManager.init ["1.2.3.4:8080"] in
  let p := [("http", "http://1.2.3.4:8080"); ("https", "http://1.2.3.4:8080")] in
  let pm1 := fst (ProxyManager.get_next_proxy pm0) in
  let pm2 := ProxyManager.mark_proxy_failed p pm1 in
  snd (ProxyManager.get_next_proxy pm0) = Py.Returns (Some p)
  /\ "http://1.2.3.4:8080" ∈ ProxyManager.failed_proxies pm2
  /\ snd (ProxyManager.get_next_proxy pm2) = Py.Returns (Some p).
Proof.
  cbv zeta. split; [vm_compute; reflexivity|]. split.
  - apply (bool_decide_unpack _). vm_compute. exact I.
  - vm_compute. reflexivity.
Qed.

(** ** parse_count *)

Section ParseCountFacts.
Import Py ParseCount.

(** The four strings of the specification parse as it says. *)
Example parse_count_12_3K : parse_count "12.3K" = Returns 12300.
Proof. vm_compute. reflexivity. Qed.

Example parse_count_1_1M : parse_count "1.1M" = Returns 1100000.
Proof. vm_compute. reflexivity. Qed.

Example parse_count_450 : parse_count "450" = Returns 450.
Proof. vm_compute. reflexivity. Qed.

Example parse_count_NA : parse_count "N/A" = Returns 0.
Proof. vm_compute. reflexivity. Qed.

(** Commas are removed before parsing. *)
Example parse_count_commas : parse_count "1,234" = Returns 1234.
Proof. vm_compute. reflexivity. Qed.

(** The float nearest to 32.3 lies below it, and so does its product with
    1000 once rounded: 32299.999999999996. *)
Example float_32_3_times_1000 :
  fmul (float_lit "32.3") (float_of_int 1000)
  = SpecFloat.S754_finite false 8878556394291199 (-38)
  /\ (32299 * 2 ^ 38 < 8878556394291199 < 32300 * 2 ^ 38).
Proof. split; [vm_compute; reflexivity | lia]. Qed.

(** An infinite value is not caught by the [except] clause. *)
Example parse_count_inf : parse_count "infK" = Raises OverflowError.
Proof. vm_compute. reflexivity. Qed.

End ParseCountFacts.

(** C6.  A count with a K or M suffix is not always mapped to its value
    times 1,000 or 1,000,000: the product is formed in binary floating point
    and then truncated, so "32.3K" gives 32299 instead of 32300 and "4.1M"
    gives 4099999 instead of 4100000. *)
Theorem parse_count_suffix_off_by_one :
  ParseCount.parse_count "32.3K" = Py.Returns 32299
  /\ ParseCount.parse_count "4.1M" = Py.Returns 4099999.
Proof. split; vm_compute; reflexivity. Qed.

(** ** BioAnalyzer *)

(** C10.  For the empty biography [analyze_bio] returns the fixed default
    record (language unknown, sentiment neutral, no commercial intent,
    gender unknown, no age indicators, no topics) whatever the external
    libraries would answer, and the trace of detector calls is empty. *)
Theorem analyze_bio_empty (L : libraries) :
  BioAnalyzer.analyze_bio_traced L "" =
    (BioAnalyzer.mk_analysis "unknown" "neutral" false "unknown" [] [], [])
  /\ BioAnalyzer.analyze_bio L "" =
    BioAnalyzer.mk_analysis "unknown" "neutral" false "unknown" [] [].
Proof. split; reflexivity. Qed.

(** A non-empty biography goes through all six detectors. *)
Lemma analyze_bio_nonempty (L : libraries) (c : ascii) (s : string) :
  snd (BioAnalyzer.analyze_bio_traced L (String c s)) =
  [ BioAnalyzer.DetectLanguage; BioAnalyzer.AnalyzeSentiment;
    BioAnalyzer.DetectCommercialIntent; BioAnalyzer.EstimateGender;
    BioAnalyzer.DetectAgeIndicators; BioAnalyzer.ExtractTopics ].
Proof. reflexivity. Qed.

(** ** SessionManager *)

Section SessionFacts.
Import SessionManager.

Lemma seen_after_load (now : string) (j : session_json) (u : string) :
  u ∈ seen_profiles (load_session now (Json j)) <-> u ∈ j_seen_profiles j.
Proof. simpl. apply elem_of_list_to_set. Qed.

(** Two files that list the same identifiers, in any order and with any
    repetition, load to the same set. *)
Lemma load_order_independent (now : string) (j1 j2 : session_json) :
  (forall u, u ∈ j_seen_profiles j1 <-> u ∈ j_seen_profiles j2) ->
  seen_profiles (load_session now (Json j1)) = seen_profiles (load_session now (Json j2)).
Proof.
  intros H. apply set_eq. intros u. rewrite !seen_after_load. apply H.
Qed.

Lemma load_of_save (now : string) (s : session_data) :
  load_session now (save_session s) = s.
Proof.
  destruct s as [seen hvts depth queue start scanned errs].
  unfold save_session, session_copy, load_session. cbn.
  rewrite list_to_set_elements_L. reflexivity.
Qed.

End SessionFacts.

(** C5.  Loading a just-saved session file gives back the session that was
    saved: the examined identifiers as the same set, and the accepted
    profiles with the same order and field values (as every other field).
    The set is rebuilt from the saved array whatever its order and
    repetitions. *)
Theorem save_load_round_trip (now : string) (s : SessionManager.session_data) :
  SessionManager.load_session now (SessionManager.save_session s) = s
  /\ SessionManager.discovered_hvts
       (SessionManager.load_session now (SessionManager.save_session s))
     = SessionManager.discovered_hvts s
  /\ (forall u : string,
        u ∈ SessionManager.seen_profiles
              (SessionManager.load_session now (SessionManager.save_session s))
        <-> u ∈ SessionManager.seen_profiles s)
  /\ (forall (j : SessionManager.session_json) (u : string),
        u ∈ SessionManager.seen_profiles
              (SessionManager.load_session now (SessionManager.Json j))
        <-> u ∈ SessionManager.j_seen_profiles j).
Proof.
  pose proof (load_of_save now s) as H.
  split; [exact H|]. rewrite H.
  split; [reflexivity|]. split; [reflexivity|].
  intros j u. apply seen_after_load.
Qed.

(** ** Qualification *)

Section QualificationFacts.
Import Py ProfileFilter.
Context (L : libraries).


Lemma finish_accepts (self : t) (a : BioAnalyzer.analysis) (reasons : list string) :
  exists r, finish self a reasons = (true, "All criteria met: " +:+ r).
Proof. unfold finish. eexists. reflexivity. Qed.

(** A rejection that cites the engagement rate comes from the band test. *)
Lemma engagement_reason_origin (self : t) (p : profile_data) (f : user_filters) :
  startswith "Engagement rate (" (snd (should_target_profile L self p f)) = true ->
  fltb (float_of_int 0) (engagement_rate p) = true
  /\ fleb (min_engagement_rate self) (engagement_rate p)
     && fleb (engagement_rate p) (max_engagement_rate self) = false.
Proof.
  unfold should_target_profile.
  destruct (negb ((min_followers f <=? follower_count p) && _)); [discriminate|].
  destruct (post_count p <? min_posts f); [discriminate|].
  destruct (is_verified p); [discriminate|].
  destruct (is_private p); [discriminate|].
  destruct (LocationValidator.is_usa_location _ _) as [is_usa location_reason].
  destruct (negb is_usa); [discriminate|].
  destruct (negb (has_active_story p)); [discriminate|].
  destruct (require_profile_pic self && _); [discriminate|].
  destruct (BioAnalyzer.has_commercial_intent _); [discriminate|].
  destruct (first_in _ _); [discriminate|].
  destruct (fltb _ _) eqn:Epos.
  - destruct (negb _) eqn:Eband.
    + intros _. split; [reflexivity|]. apply negb_true_iff in Eband. exact Eband.
    + match goal with |- context [finish ?s ?a ?r] =>
        destruct (finish_accepts s a r) as [x ->] end.
      discriminate.
  - match goal with |- context [finish ?s ?a ?r] =>
      destruct (finish_accepts s a r) as [x ->] end.
    discriminate.
Qed.

End QualificationFacts.

(** C8.  In [should_target_profile], a candidate whose engagement rate is
    greater than 0 and outside [[min_engagement_rate, max_engagement_rate]]
    is rejected, and with the engagement reason as soon as the same candidate
    with rate 0 is accepted (so that no other step rejects it); a candidate
    whose engagement rate is 0 is never rejected with the engagement reason. *)
Theorem engagement_band (L : libraries) (self : ProfileFilter.t)
  (p : profile_data) (f : user_filters) :
  (Py.fltb (Py.float_of_int 0) (engagement_rate p) = true ->
   Py.fleb (ProfileFilter.min_engagement_rate self) (engagement_rate p)
     && Py.fleb (engagement_rate p) (ProfileFilter.max_engagement_rate self) = false ->
   fst (ProfileFilter.should_target_profile L self p f) = false
   /\ (fst (ProfileFilter.should_target_profile L self
              (with_engagement_rate p (Py.float_of_int 0)) f) = true ->
       ProfileFilter.should_target_profile L self p f
       = (false, ProfileFilter.engagement_reason L p)))
  /\ (engagement_rate p = Py.float_of_int 0 ->
      Py.startswith "Engagement rate ("
        (snd (ProfileFilter.should_target_profile L self p f)) = false).
Proof.
  split.
  - intros Hpos Hband.
    unfold ProfileFilter.should_target_profile, with_engagement_rate.
    cbn [follower_count post_count is_verified is_private bio location
         has_active_story profile_pic_url engagement_rate].
    destruct (negb ((min_followers f <=? follower_count p) && _));
      [split; [reflexivity | discriminate]|].
    destruct (post_count p <? min_posts f); [split; [reflexivity | discriminate]|].
    destruct (is_verified p); [split; [reflexivity | discriminate]|].
    destruct (is_private p); [split; [reflexivity | discriminate]|].
    destruct (LocationValidator.is_usa_location _ _) as [is_usa location_reason].
    destruct (negb is_usa); [split; [reflexivity | discriminate]|].
    destruct (negb (has_active_story p)); [split; [reflexivity | discriminate]|].
    destruct (ProfileFilter.require_profile_pic self && _);
      [split; [reflexivity | discriminate]|].
    destruct (BioAnalyzer.has_commercial_intent _);
      [split; [reflexivity | discriminate]|].
    destruct (Py.first_in _ _); [split; [reflexivity | discriminate]|].
    rewrite Hpos, Hband. split; reflexivity.
  - intros Hzero.
    destruct (Py.startswith _ _) eqn:E; [|reflexivity].
    apply engagement_reason_origin in E. destruct E as [E _].
    rewrite Hzero in E. vm_compute in E. discriminate.
Qed.

Lemma engagement_band_witness :
  ProfileFilter.should_target_profile offline_libraries template_filtering
    (sample_profile 5000 "mom of 3 in Austin, Texas" "50.0") (default_filters [] [] 1000)
  = (false, ProfileFilter.engagement_reason offline_libraries
              (sample_profile 5000 "mom of 3 in Austin, Texas" "50.0"))
  /\ Py.startswith "Engagement rate ("
       (snd (ProfileFilter.should_target_profile offline_libraries template_filtering
               (sample_profile 5000 "mom of 3 in Austin, Texas" "0.0")
               (default_filters [] [] 1000))) = false.
Proof.
  split.
  - destruct (engagement_band offline_libraries template_filtering
                (sample_profile 5000 "mom of 3 in Austin, Texas" "50.0")
                (default_filters [] [] 1000)) as [H _].
    destruct H as [_ H]; [vm_compute; reflexivity | vm_compute; reflexivity |].
    apply H. vm_compute. reflexivity.
  - destruct (engagement_band offline_libraries template_filtering
                (sample_profile 5000 "mom of 3 in Austin, Texas" "0.0")
                (default_filters [] [] 1000)) as [_ H].
    apply H. vm_compute. reflexivity.
Defined.

(** A candidate with an unknown engagement rate that passes every step. *)
Example zero_engagement_accepted :
  ProfileFilter.should_target_profile offline_libraries template_filtering
    (sample_profile 5000 "mom of 3 in Austin, Texas" "0.0") (default_filters [] [] 1000)
  = (true, "All criteria met: USA location: USA location confirmed: in, mo, texas; Active story confirmed; Female profile (preferred)").
Proof. vm_compute. reflexivity. Qed.




(** ** Orchestrator: deduplication *)

Section OrchestratorFacts.
Import Py HunterOrchestrator.
Context (L : libraries) (W : web).
Context (user : user_filters) (filtering : ProfileFilter.t) (now : string).

Abbreviation process_single_profile := (process_single_profile W).
Abbreviation examine := (examine L W user filtering now).
Abbreviation seen o := (SessionManager.seen_profiles (session o)).

(** A seen identifier is skipped before any fetch: nothing changes. *)
Lemma process_seen (u : string) (o : t) :
  u ∈ seen o -> process_single_profile u o = (o, None).
Proof.
  intros H. unfold HunterOrchestrator.process_single_profile,
    SessionManager.is_profile_seen.
  rewrite bool_decide_eq_true_2 by exact H. reflexivity.
Qed.

(** An unseen identifier is fetched once, counted once and marked seen. *)
Lemma process_unseen (u : string) (o : t) :
  u ∉ seen o ->
  let o' := fst (process_single_profile u o) in
  fetched o' = fetched o ++ [u]
  /\ seen o' = {[u]} ∪ seen o
  /\ total_profiles_scanned o' = total_profiles_scanned o + 1
  /\ should_stop o' = should_stop o
  /\ SessionManager.discovered_hvts (session o')
     = SessionManager.discovered_hvts (session o).
Proof.
  intros H. unfold HunterOrchestrator.process_single_profile,
    SessionManager.is_profile_seen.
  rewrite bool_decide_eq_false_2 by exact H.
  unfold get_profile_data.
  destruct (profile_page W (length (fetched o)) u) as [| |a]; cbn.
  - repeat split; reflexivity.
  - repeat split; reflexivity.
  - destruct (negb _); cbn; repeat split; reflexivity.
Qed.

(** [examine] only adds, to what [process_single_profile] does, the
    recording of an accepted profile. *)
Lemma examine_frame (u src : string) (o : t) :
  let o1 := fst (process_single_profile u o) in
  let o2 := fst (examine u src o) in
  fetched o2 = fetched o1 /\ seen o2 = seen o1
  /\ total_profiles_scanned o2 = total_profiles_scanned o1
  /\ should_stop o2 = should_stop o1.
Proof.
  unfold HunterOrchestrator.examine.
  destruct (process_single_profile u o) as [o1 [p|]]; cbn [fst].
  - destruct (apply_all_filters L user filtering p) as [[|] reason].
    + destruct (create_hvt_profile L now p reason src); cbn; repeat split; reflexivity.
    + cbn. repeat split; reflexivity.
  - cbn. repeat split; reflexivity.
Qed.

Lemma examine_seen (u src : string) (o : t) :
  u ∈ seen o -> examine u src o = (o, Returns None).
Proof.
  intros H. unfold HunterOrchestrator.examine. rewrite (process_seen u o H).
  reflexivity.
Qed.

Lemma examine_marks_seen (u src : string) (o : t) :
  u ∈ seen (fst (examine u src o)).
Proof.
  destruct (examine_frame u src o) as [_ [-> _]].
  destruct (decide (u ∈ seen o)) as [Hin|Hout].
  - rewrite (process_seen u o Hin). exact Hin.
  - destruct (process_unseen u o Hout) as [_ [-> _]].
    apply elem_of_union. left. apply elem_of_singleton. reflexivity.
Qed.

(** The constructor call of [create_hvt_profile] always fails: two of the
    nineteen required fields are not passed. *)
Remark create_hvt_profile_raises (p : profile_data) (reason src : string) :
  create_hvt_profile L now p reason src = Raises TypeError.
Proof. reflexivity. Qed.

Lemma fetch_once_examine (seen0 : gset string) (u src : string) (o : t) :
  fetch_once seen0 o -> fetch_once seen0 (fst (examine u src o)).
Proof.
  intros (Hnd & Hf & Hsub). unfold fetch_once.
  destruct (examine_frame u src o) as (-> & -> & _).
  destruct (decide (u ∈ seen o)) as [Hin|Hout].
  - rewrite (process_seen u o Hin). cbn [fst]. auto.
  - destruct (process_unseen u o Hout) as (-> & -> & _).
    split; [|split].
    + apply NoDup_app. split; [exact Hnd|]. split.
      * intros x Hx Hx'. apply list_elem_of_singleton in Hx'. subst x.
        apply Hout. apply Hf. exact Hx.
      * apply NoDup_singleton.
    + intros x Hx. apply elem_of_app in Hx. destruct Hx as [Hx|Hx].
      * destruct (Hf x Hx) as [Hs Hn]. split; [|exact Hn].
        apply elem_of_union. right. exact Hs.
      * apply list_elem_of_singleton in Hx. subst x. split.
        -- apply elem_of_union. left. apply elem_of_singleton. reflexivity.
        -- intros H0. apply Hout. apply Hsub. exact H0.
    + intros x Hx. apply elem_of_union. right. apply Hsub. exact Hx.
Qed.

Lemma fetch_once_seed_loop (seen0 : gset string) (l : list string)
  (acc : list UserProfile.t) (o : t) :
  fetch_once seen0 o -> fetch_once seen0 (fst (seed_loop L W user filtering now l acc o)).
Proof.
  revert acc o. induction l as [|u l IH]; intros acc o H; cbn [seed_loop].
  - exact H.
  - destruct (should_stop o); [exact H|].
    pose proof (fetch_once_examine seen0 u "initial_seed" o H) as H1.
    destruct (examine u "initial_seed" o) as [o1 [[hvt|]|e]]; cbn [fst] in H1.
    + apply IH. exact H1.
    + apply IH. exact H1.
    + exact H1.
Qed.

Lemma fetch_once_follower_loop (seen0 : gset string) (l : list string) (src : string)
  (acc : list UserProfile.t) (o : t) :
  fetch_once seen0 o ->
  fetch_once seen0 (fst (follower_loop L W user filtering now l src acc o)).
Proof.
  revert acc o. induction l as [|u l IH]; intros acc o H; cbn [follower_loop].
  - exact H.
  - destruct (stop_or_budget user o); [exact H|].
    pose proof (fetch_once_examine seen0 u src o H) as H1.
    destruct (examine u src o) as [o1 [[hvt|]|e]]; cbn [fst] in H1.
    + apply IH. exact H1.
    + apply IH. exact H1.
    + exact H1.
Qed.

Lemma fetch_once_source_loop (seen0 : gset string) (q acc : list UserProfile.t) (o : t) :
  fetch_once seen0 o ->
  fetch_once seen0 (fst (source_loop L W user filtering now q acc o)).
Proof.
  revert acc o. induction q as [|h q IH]; intros acc o H; cbn [source_loop].
  - exact H.
  - destruct (stop_or_budget user o); [exact H|].
    destruct (followers_list W _ _) as [|u l]; [apply IH; exact H|].
    pose proof (fetch_once_follower_loop seen0 (u :: l) (UserProfile.username h) [] o H) as H1.
    destruct (follower_loop _ _ _ _ _ (u :: l) _ _ o) as [o1 [found|e]]; cbn [fst] in H1.
    + apply IH. exact H1.
    + exact H1.
Qed.

Lemma fetch_once_depth_loop (seen0 : gset string) (n : nat) (d : Z)
  (q acc : list UserProfile.t) (o : t) :
  fetch_once seen0 o ->
  fetch_once seen0 (fst (depth_loop L W user filtering now n d q acc o)).
Proof.
  revert d q acc o. induction n as [|n IH]; intros d q acc o H; cbn [depth_loop].
  - exact H.
  - destruct (_ || should_stop o); [exact H|].
    match goal with |- context [source_loop _ _ _ _ _ q [] ?o'] =>
      assert (H1 : fetch_once seen0 (fst (source_loop L W user filtering now q [] o')))
        by (apply fetch_once_source_loop; exact H);
      destruct (source_loop L W user filtering now q [] o') as [o1 [next|e]]
    end; cbn [fst] in H1.
    + apply IH. exact H1.
    + exact H1.
Qed.

Lemma fetch_once_run (seen0 : gset string) (o : t) :
  fetch_once seen0 o ->
  fetch_once seen0 (fst (run_main_workflow L W user filtering now o)).
Proof.
  intros H. unfold run_main_workflow. cbn [fst].
  assert (H1 : fetch_once seen0 (fst (find_initial_hvts L W user filtering now o))).
  { unfold find_initial_hvts. destruct (seed_hashtags user) as [|tag tags]; [exact H|].
    destruct (profiles_from_hashtags W _) as [|u l]; [exact H|].
    apply fetch_once_seed_loop. exact H. }
  destruct (find_initial_hvts L W user filtering now o) as [o1 [hvts|e]];
    cbn [fst] in H1; [|exact H1].
  unfold recursive_follower_expansion.
  destruct hvts as [|h hvts].
  - destruct (should_stop o1); [|exact H1].
    apply fetch_once_depth_loop. exact H1.
  - apply fetch_once_depth_loop. exact H1.
Qed.

Lemma fetch_once_init (f : SessionManager.file) :
  fetch_once (SessionManager.seen_profiles (SessionManager.load_session now f))
             (init now f).
Proof.
  unfold fetch_once, init. cbn. split; [apply NoDup_nil_2|]. split.
  - intros u Hu. apply elem_of_nil in Hu. contradiction.
  - reflexivity.
Qed.

End OrchestratorFacts.

(** ** Orchestrator: budget *)

Section BudgetFacts.
Import Py HunterOrchestrator.
Context (L : libraries) (W : web).
Context (user : user_filters) (filtering : ProfileFilter.t) (now : string).

Abbreviation budget := (max_profiles user).

Lemma examine_total (u src : string) (o : t) :
  total_profiles_scanned o
  <= total_profiles_scanned (fst (examine L W user filtering now u src o))
  <= total_profiles_scanned o + 1.
Proof.
  destruct (examine_frame L W user filtering now u src o) as (_ & _ & -> & _).
  destruct (decide (u ∈ SessionManager.seen_profiles (session o))) as [Hin|Hout].
  - rewrite (process_seen W u o Hin). cbn [fst]. lia.
  - destruct (process_unseen W u o Hout) as (_ & _ & -> & _). lia.
Qed.

(** The expansion loops test the budget before each fetch: they never
    take the counter beyond the budget, unless it was beyond it already. *)
Lemma follower_loop_within_budget (l : list string) (src : string)
  (acc : list UserProfile.t) (o : t) :
  total_profiles_scanned (fst (follower_loop L W user filtering now l src acc o))
  <= Z.max (total_profiles_scanned o) budget.
Proof.
  revert acc o. induction l as [|u l IH]; intros acc o; cbn [follower_loop].
  - cbn [fst]. lia.
  - destruct (stop_or_budget user o) eqn:E; [cbn [fst]; lia|].
    apply orb_false_iff in E. destruct E as [_ E]. apply Z.leb_gt in E.
    pose proof (examine_total u src o) as H1.
    destruct (examine L W user filtering now u src o) as [o1 [[hvt|]|e]];
      cbn [fst] in H1 |- *.
    + specialize (IH (acc ++ [hvt]) o1). lia.
    + specialize (IH acc o1). lia.
    + lia.
Qed.

Lemma source_loop_within_budget (q acc : list UserProfile.t) (o : t) :
  total_profiles_scanned (fst (source_loop L W user filtering now q acc o))
  <= Z.max (total_profiles_scanned o) budget.
Proof.
  revert acc o. induction q as [|h q IH]; intros acc o; cbn [source_loop].
  - cbn [fst]. lia.
  - destruct (stop_or_budget user o); [cbn [fst]; lia|].
    destruct (followers_list W _ _) as [|u l]; [apply IH|].
    pose proof (follower_loop_within_budget (u :: l) (UserProfile.username h) [] o) as H1.
    destruct (follower_loop _ _ _ _ _ (u :: l) _ _ o) as [o1 [found|e]];
      cbn [fst] in H1 |- *.
    + specialize (IH (acc ++ found) o1). lia.
    + lia.
Qed.

Lemma expansion_within_budget (initial_hvts : list UserProfile.t) (o : t) :
  total_profiles_scanned
    (fst (recursive_follower_expansion L W user filtering now initial_hvts o))
  <= Z.max (total_profiles_scanned o) budget.
Proof.
  unfold recursive_follower_expansion.
  generalize (Z.to_nat (max_depth user)) as n, 1 as d, initial_hvts at 2 as acc.
  revert o. generalize initial_hvts as q.
  intros q o n. revert q o.
  induction n as [|n IH]; intros q o d acc; cbn [depth_loop].
  - cbn [fst]. lia.
  - destruct (_ || should_stop o); [cbn [fst]; lia|].
    match goal with |- context [source_loop _ _ _ _ _ q [] ?o'] =>
      pose proof (source_loop_within_budget q [] o') as H1;
      destruct (source_loop L W user filtering now q [] o') as [o1 [next|e]]
    end; cbn [fst total_profiles_scanned] in H1 |- *.
    + specialize (IH next o1 (d + 1) (acc ++ next)). lia.
    + lia.
Qed.

End BudgetFacts.

(** C1.  With a budget of one profile, a fresh session scans two: the
    seed loop of [find_initial_hvts] tests only the stop flag, not the
    budget, so both seed profiles are fetched and the counter ends at 2. *)
Theorem seed_phase_exceeds_budget :
  let user := default_filters [] [] 1 in
  let o := fst (HunterOrchestrator.run_main_workflow offline_libraries two_seed_web
                  user template_filtering "2026-01-01T00:00:00"
                  (HunterOrchestrator.init "2026-01-01T00:00:00" SessionManager.Absent)) in
  max_profiles user = 1
  /\ HunterOrchestrator.fetched o = ["alice"; "bob"]
  /\ HunterOrchestrator.total_profiles_scanned o = 2.
Proof. cbv zeta. split; [reflexivity|]. split; vm_compute; reflexivity. Qed.

(** ** Deduplication across a session and a reload *)

(** C2 (as stated, on [add_hvt]).  The store does not treat the
    re-acceptance of an identifier as a no-op: [add_hvt] appends without
    looking, so adding the same profile again changes the accepted list and
    leaves two entries for it. *)
Lemma add_hvt_appends_again :
  let s := SessionManager.add_hvt sample_hvt (SessionManager.fresh "2026-01-01T00:00:00") in
  SessionManager.discovered_hvts s = [sample_hvt]
  /\ SessionManager.discovered_hvts (SessionManager.add_hvt sample_hvt s)
     = [sample_hvt; sample_hvt]
  /\ SessionManager.discovered_hvts (SessionManager.add_hvt sample_hvt s)
     <> SessionManager.discovered_hvts s.
Proof. cbv zeta. split; [reflexivity|]. split; [reflexivity | discriminate]. Qed.

(** C2 (amended).  An identifier in the seen set is skipped before any
    fetch and before any acceptance: examining it leaves the orchestrator
    as it was (same fetch log, same accepted list).  Hence examining an
    identifier a second time, in the same session or in a session started
    from the saved file, fetches nothing and accepts nothing; and over a
    whole run no page is fetched twice, nor is the page of an identifier
    that the loaded session had already seen.  (That no duplicate reaches
    the accepted list rests on this guard; [add_hvt] itself appends whatever
    it is given.) *)
Theorem seen_identifier_is_skipped (L : libraries) (W : HunterOrchestrator.web)
  (user : user_filters) (filtering : ProfileFilter.t) (now : string)
  (u src src' : string) (o : HunterOrchestrator.t) :
  (u ∈ SessionManager.seen_profiles (HunterOrchestrator.session o) ->
   HunterOrchestrator.examine L W user filtering now u src o = (o, Py.Returns None))
  /\ (let o1 := fst (HunterOrchestrator.examine L W user filtering now u src o) in
      HunterOrchestrator.examine L W user filtering now u src' o1
      = (o1, Py.Returns None))
  /\ (forall now' : string,
      let o1 := fst (HunterOrchestrator.examine L W user filtering now u src o) in
      let o2 := HunterOrchestrator.init now'
                  (SessionManager.save_session (HunterOrchestrator.session o1)) in
      HunterOrchestrator.examine L W user filtering now' u src' o2
      = (o2, Py.Returns None))
  /\ (forall f : SessionManager.file,
      let o' := fst (HunterOrchestrator.run_main_workflow L W user filtering now
                       (HunterOrchestrator.init now f)) in
      NoDup (HunterOrchestrator.fetched o')
      /\ forall v, v ∈ HunterOrchestrator.fetched o' ->
                   v ∉ SessionManager.seen_profiles (SessionManager.load_session now f)).
Proof.
  split; [apply examine_seen|]. split; [|split].
  - cbv zeta. apply examine_seen. apply examine_marks_seen.
  - intros now'. cbv zeta. apply examine_seen.
    unfold HunterOrchestrator.init. cbn [HunterOrchestrator.session].
    rewrite load_of_save. apply examine_marks_seen.
  - intros f. cbv zeta.
    destruct (fetch_once_run L W user filtering now _ _ (fetch_once_init now f))
      as (Hnd & Hf & _).
    split; [exact Hnd|]. intros v Hv. apply (Hf v Hv).
Qed.

Lemma seen_identifier_is_skipped_witness :
  let o := HunterOrchestrator.init "2026-01-02T00:00:00"
             (SessionManager.Json
                (SessionManager.mk_json ["bob"; "alice"; "bob"] [] 0 []
                   "2026-01-01T00:00:00" 2 0)) in
  HunterOrchestrator.examine offline_libraries two_seed_web (default_filters [] [] 1000)
    template_filtering "2026-01-02T00:00:00" "alice" "initial_seed" o
  = (o, Py.Returns None).
Proof.
  cbv zeta.
  apply (seen_identifier_is_skipped offline_libraries two_seed_web
           (default_filters [] [] 1000) template_filtering "2026-01-02T00:00:00"
           "alice" "initial_seed" "initial_seed").
  apply (bool_decide_unpack _). vm_compute. exact I.
Defined.

(** ** get_followers *)

Section GetFollowersFacts.
Import GetFollowers.
Context (B : browser).

(** The loop ends within [max_scroll_attempts - scroll_attempts] passes. *)
Lemma scroll_loop_terminates (fuel : nat) (limit max_scroll_attempts : Z)
  (st : loop_state) :
  (Z.to_nat (max_scroll_attempts - scroll_attempts st) <= fuel)%nat ->
  exists st',
    scroll_loop B fuel limit max_scroll_attempts st = Some st'
    /\ (passes st' <= passes st + Z.to_nat (max_scroll_attempts - scroll_attempts st))%nat.
Proof.
  revert st. induction fuel as [|fuel IH]; intros st Hfuel.
  - exists st. split; [|lia]. cbn [scroll_loop].
    destruct (Z.of_nat _ <? limit); cbn [andb]; [|reflexivity].
    destruct (scroll_attempts st <? max_scroll_attempts) eqn:E; [|reflexivity].
    apply Z.ltb_lt in E. lia.
  - cbn [scroll_loop].
    destruct (Z.of_nat _ <? limit); cbn [andb]; [|exists st; split; [reflexivity | lia]].
    destruct (scroll_attempts st <? max_scroll_attempts) eqn:E;
      [|exists st; split; [reflexivity | lia]].
    apply Z.ltb_lt in E.
    destruct (raised (scroll_pass B (passes st))).
    + eexists. split; [reflexivity|]. cbn [passes]. lia.
    + match goal with |- context [scroll_loop B fuel limit max_scroll_attempts ?s] =>
        destruct (IH s) as (st' & Hst' & Hp) end.
      { cbn [scroll_attempts]. lia. }
      exists st'. split; [exact Hst'|]. cbn [passes scroll_attempts] in Hp. lia.
Qed.

Lemma slice_to_length {A} (l : list A) (limit : Z) :
  0 <= limit -> Z.of_nat (length (slice_to l limit)) <= limit.
Proof.
  intros H. unfold slice_to. rewrite (proj2 (Z.leb_le 0 limit) H).
  rewrite length_take. lia.
Qed.

Lemma slice_to_NoDup {A} (l : list A) (limit : Z) :
  NoDup l -> NoDup (slice_to l limit).
Proof.
  intros H. unfold slice_to.
  destruct (0 <=? limit); eapply sublist_NoDup; try exact H; apply sublist_take.
Qed.

End GetFollowersFacts.

(** The loop condition on [scroll_attempts] ends the collection after
    [50 // 12 = 4] passes although no new follower appears. *)
Example get_followers_50 :
  exists st l,
    GetFollowers.get_followers two_follower_browser 4 50 = Some (Some st, l)
    /\ GetFollowers.passes st = 4%nat
    /\ l ≡ₚ ["carol"; "dave"].
Proof.
  eexists. eexists. split; [vm_compute; reflexivity|].
  split; [reflexivity|]. vm_compute.
  first [reflexivity | apply Permutation_swap].
Qed.

(** C9.  [get_followers] returns for every limit, once it is given fuel
    for [limit // 12] passes: the collection loop runs its body at most
    [limit // 12] times (never, for a limit below 12) and the list returned
    has no duplicates.  For a limit of at least 0, the number of passes is
    therefore at most [ceil(limit / 12) + 1] and the list has at most [limit]
    elements. *)
Theorem get_followers_bounded (B : GetFollowers.browser) (limit : Z) (fuel : nat) :
  (Z.to_nat (limit / GetFollowers.per_scroll) <= fuel)%nat ->
  exists st l,
    GetFollowers.get_followers B fuel limit = Some (st, l)
    /\ NoDup l
    /\ (forall s, st = Some s ->
          (GetFollowers.passes s <= Z.to_nat (limit / GetFollowers.per_scroll))%nat)
    /\ (0 <= limit ->
        Z.of_nat (length l) <= limit
        /\ forall s, st = Some s ->
             Z.of_nat (GetFollowers.passes s)
             <= (limit + GetFollowers.per_scroll - 1) / GetFollowers.per_scroll + 1).
Proof.
  intros Hfuel. unfold GetFollowers.get_followers.
  destruct (GetFollowers.dialog_opens B).
  - destruct (scroll_loop_terminates B fuel limit (limit / GetFollowers.per_scroll)
                (GetFollowers.mk_loop ∅ 0 0)) as (st' & -> & Hp).
    { cbn [GetFollowers.scroll_attempts]. rewrite Z.sub_0_r. exact Hfuel. }
    cbn [GetFollowers.passes GetFollowers.scroll_attempts] in Hp.
    rewrite Z.sub_0_r in Hp.
    exists (Some st'), (GetFollowers.slice_to (elements (GetFollowers.followers st')) limit).
    split; [reflexivity|].
    split; [apply slice_to_NoDup, NoDup_elements|].
    split; [intros s [= <-]; exact Hp|].
    intros Hlimit. split; [apply slice_to_length; exact Hlimit|].
    intros s [= <-].
    assert (Hq : 0 <= limit / GetFollowers.per_scroll)
      by (apply Z.div_pos; [exact Hlimit | reflexivity]).
    assert (Hc : limit / GetFollowers.per_scroll
                 <= (limit + GetFollowers.per_scroll - 1) / GetFollowers.per_scroll).
    { apply Z.div_le_mono; [reflexivity | unfold GetFollowers.per_scroll; lia]. }
    lia.
  - exists None, []. split; [reflexivity|]. split; [apply NoDup_nil_2|].
    split; [intros s [=]|]. intros Hlimit. split; [cbn; lia | intros s [=]].
Qed.

Lemma get_followers_bounded_witness :
  exists st l,
    GetFollowers.get_followers two_follower_browser 4 50 = Some (st, l)
    /\ NoDup l
    /\ (forall s, st = Some s ->
          (GetFollowers.passes s <= Z.to_nat (50 / GetFollowers.per_scroll))%nat)
    /\ (0 <= 50 ->
        Z.of_nat (length l) <= 50
        /\ forall s, st = Some s ->
             Z.of_nat (GetFollowers.passes s)
             <= (50 + GetFollowers.per_scroll - 1) / GetFollowers.per_scroll + 1).
Proof.
  apply (get_followers_bounded two_follower_browser 50 4).
  vm_compute. lia.
Defined.

(** * Further properties of the code *)

(** ** Keyword searches *)

Section KeywordFacts.
Import Py.

Lemma contains_empty (text : string) : contains "" text = true.
Proof. destruct text; reflexivity. Qed.

Lemma first_in_None (keywords : list string) (text : string) :
  first_in keywords text = None <-> any_in keywords text = false.
Proof.
  unfold first_in, any_in. induction keywords as [|k ks IH]; cbn.
  - tauto.
  - destruct (contains k text); cbn; [split; discriminate | exact IH].
Qed.

Lemma first_in_any_in (keywords : list string) (text : string) :
  any_in keywords text = match first_in keywords text with Some _ => true | None => false end.
Proof.
  destruct (first_in keywords text) eqn:E.
  - apply first_in_Some in E. destruct E as [E1 E2]. apply (any_in_witness _ s); assumption.
  - apply first_in_None. exact E.
Qed.

Lemma filter_contains_any_in (keywords : list string) (text : string) :
  any_in keywords text
  = match filter (fun k => contains k text = true) keywords with
    | [] => false
    | _ :: _ => true
    end.
Proof.
  unfold any_in. induction keywords as [|k ks IH]; [reflexivity|].
  cbn [existsb]. rewrite filter_cons.
  destruct (decide (contains k text = true)) as [Hk|Hk].
  - rewrite Hk. reflexivity.
  - apply not_true_is_false in Hk. rewrite Hk. exact IH.
Qed.

Lemma lower_ascii_idem (c : ascii) : lower_ascii (lower_ascii c) = lower_ascii c.
Proof.
  destruct c as [[] [] [] [] [] [] [] []]; reflexivity.
Qed.

Lemma lower_idem (s : string) : lower (lower s) = lower s.
Proof.
  induction s as [|c s IH]; [reflexivity|]. cbn [lower].
  rewrite lower_ascii_idem, IH. reflexivity.
Qed.

Lemma lower_app (a b : string) : lower (a +:+ b) = lower a +:+ lower b.
Proof.
  induction a as [|c a IH]; [reflexivity|].
  change (String (lower_ascii c) (lower (a +:+ b))
          = String (lower_ascii c) (lower a +:+ lower b)).
  rewrite IH. reflexivity.
Qed.

End KeywordFacts.

(** ** LocationValidator: what decides the answer *)

Section LocationDecision.
Import Py LocationValidator.

Lemma is_usa_decision (bio location_field : string) :
  let text := lower (bio +:+ " " +:+ location_field) in
  fst (is_usa_location bio location_field)
  = negb (any_in non_usa_indicators text) && any_in usa_keywords text
  /\ startswith "Ambiguous city" (snd (is_usa_location bio location_field)) = false.
Proof.
  cbv zeta. unfold is_usa_location.
  set (text := lower (bio +:+ " " +:+ location_field)).
  rewrite (first_in_any_in non_usa_indicators text).
  rewrite (filter_contains_any_in usa_keywords text).
  destruct (first_in non_usa_indicators text) as [ind|]; [split; reflexivity|].
  destruct (filter _ usa_keywords) as [|m ms] eqn:Hf; [|split; reflexivity].
  destruct (first_in ambiguous_cities text) as [c|] eqn:Hc; [|split; reflexivity].
  apply first_in_Some in Hc. destruct Hc as [Hin Hc].
  pose proof (ambiguous_city_matches_usa c text Hin Hc) as Hany.
  rewrite (filter_contains_any_in usa_keywords text), Hf in Hany. discriminate.
Qed.

End LocationDecision.

(** X1.  [is_usa_location] accepts exactly when no non-USA indicator and
    at least one USA keyword occurs as a substring of the lower-cased
    "bio location" text; the list of ambiguous cities has no influence on
    the answer. *)
Theorem is_usa_location_accepts_iff (bio location_field : string) :
  fst (LocationValidator.is_usa_location bio location_field)
  = negb (Py.any_in LocationValidator.non_usa_indicators
            (Py.lower (bio +:+ " " +:+ location_field)))
    && Py.any_in LocationValidator.usa_keywords
         (Py.lower (bio +:+ " " +:+ location_field)).
Proof. apply (is_usa_decision bio location_field). Qed.

(** X2.  No input makes [is_usa_location] return one of its two
    "Ambiguous city" reasons: each listed city contains a two-letter state
    code, so the USA-keyword test always answers first. *)
Theorem ambiguous_city_branch_is_dead (bio location_field : string) :
  Py.startswith "Ambiguous city"
    (snd (LocationValidator.is_usa_location bio location_field)) = false.
Proof. apply (is_usa_decision bio location_field). Qed.

(** X3.  The answer of [is_usa_location] does not depend on the letter
    case of the biography and the location. *)
Theorem is_usa_location_ignores_case (bio location_field : string) :
  LocationValidator.is_usa_location (Py.lower bio) (Py.lower location_field)
  = LocationValidator.is_usa_location bio location_field.
Proof.
  unfold LocationValidator.is_usa_location.
  rewrite !lower_app, !lower_idem. reflexivity.
Qed.

(** ** ProfileFilter: what decides the answer *)

Section AcceptanceFacts.
Import Py ProfileFilter.
Context (L : libraries).

Lemma accept_conditions (self : t) (p : profile_data) (f : user_filters) :
  fst (should_target_profile L self p f) = passes_all L self p f
  /\ startswith "All criteria met: " (snd (should_target_profile L self p f))
     = passes_all L self p f.
Proof.
  unfold should_target_profile, passes_all.
  rewrite (first_in_any_in (exclude_keywords self) (lower (bio p))).
  destruct ((min_followers f <=? follower_count p)
            && (follower_count p <=? max_followers f)); [|split; reflexivity].
  destruct (post_count p <? min_posts f); [split; reflexivity|].
  destruct (is_verified p); [split; reflexivity|].
  destruct (is_private p); [split; reflexivity|].
  destruct (LocationValidator.is_usa_location _ _) as [[|] location_reason];
    [|split; reflexivity].
  destruct (has_active_story p); [|split; reflexivity].
  destruct (require_profile_pic self && _); [split; reflexivity|].
  destruct (BioAnalyzer.has_commercial_intent _); [split; reflexivity|].
  destruct (first_in _ _); [split; reflexivity|].
  cbn [negb andb fst].
  destruct (fltb _ _); cbn [negb orb].
  - destruct (fleb _ _ && fleb _ _); cbn [negb]; [|split; reflexivity].
    match goal with |- context [finish ?s ?a ?r] =>
      destruct (finish_accepts s a r) as [x ->] end.
    split; reflexivity.
  - match goal with |- context [finish ?s ?a ?r] =>
      destruct (finish_accepts s a r) as [x ->] end.
    split; reflexivity.
Qed.

End AcceptanceFacts.

(** X4.  [should_target_profile] accepts a profile exactly when all ten
    tests pass: followers within the inclusive range, enough posts, not
    verified, not private, USA location, active story, a picture when one is
    required, no commercial intent, no excluded keyword, and an engagement
    rate that is either not positive or within the inclusive band. *)
Theorem should_target_profile_accepts_iff (L : libraries) (self : ProfileFilter.t)
  (p : profile_data) (f : user_filters) :
  fst (ProfileFilter.should_target_profile L self p f) = true
  <-> (min_followers f <= follower_count p <= max_followers f)
      /\ min_posts f <= post_count p
      /\ is_verified p = false
      /\ is_private p = false
      /\ fst (LocationValidator.is_usa_location (bio p) (location p)) = true
      /\ has_active_story p = true
      /\ (ProfileFilter.require_profile_pic self = true -> profile_pic_url p <> "")
      /\ BioAnalyzer.detect_commercial_intent (bio p) = false
      /\ (forall k, In k (ProfileFilter.exclude_keywords self) ->
                    Py.contains k (Py.lower (bio p)) = false)
      /\ (Py.fltb (Py.float_of_int 0) (engagement_rate p) = true ->
          Py.fleb (ProfileFilter.min_engagement_rate self) (engagement_rate p) = true
          /\ Py.fleb (engagement_rate p) (ProfileFilter.max_engagement_rate self) = true).
Proof.
  destruct (accept_conditions L self p f) as [-> _]. unfold passes_all.
  assert (Hci : BioAnalyzer.has_commercial_intent (BioAnalyzer.analyze_bio L (bio p))
                = BioAnalyzer.detect_commercial_intent (bio p)).
  { unfold BioAnalyzer.analyze_bio, BioAnalyzer.analyze_bio_traced.
    destruct (bio p); reflexivity. }
  rewrite Hci.
  assert (Hex : Py.any_in (ProfileFilter.exclude_keywords self) (Py.lower (bio p)) = false
                <-> forall k, In k (ProfileFilter.exclude_keywords self) ->
                              Py.contains k (Py.lower (bio p)) = false).
  { unfold Py.any_in. rewrite <- not_true_iff_false, existsb_exists. split.
    - intros H k Hk. apply not_true_is_false. intros Hc. apply H. exists k. tauto.
    - intros H [k [Hk Hc]]. rewrite (H k Hk) in Hc. discriminate. }
  rewrite !andb_true_iff, !negb_true_iff, orb_true_iff, negb_true_iff, andb_true_iff.
  rewrite Hex, !Z.leb_le, Z.ltb_ge, andb_false_iff, String.eqb_neq.
  split.
  - intros ((((((((((H1 & H2) & H3) & H4) & H5) & H6) & H7) & H8) & H9) & H10) & H11).
    repeat split; try assumption.
    + intros Hr. destruct H8 as [H8|H8]; [congruence | exact H8].
    + destruct H11 as [H11|H11]; [congruence | apply H11].
    + destruct H11 as [H11|H11]; [congruence | apply H11].
  - intros ((H1 & H2) & H3 & H4 & H5 & H6 & H7 & H8 & H9 & H10 & H11).
    repeat split; try assumption.
    + destruct (ProfileFilter.require_profile_pic self); [right; auto | left; reflexivity].
    + destruct (Py.fltb (Py.float_of_int 0) (engagement_rate p)); [right; auto | left; reflexivity].
Qed.

(** X5.  The flag and the reason returned by [should_target_profile]
    agree: the profile is accepted exactly when the reason starts with
    "All criteria met: ". *)
Theorem should_target_profile_reason_agrees (L : libraries) (self : ProfileFilter.t)
  (p : profile_data) (f : user_filters) :
  Py.startswith "All criteria met: " (snd (ProfileFilter.should_target_profile L self p f))
  = fst (ProfileFilter.should_target_profile L self p f).
Proof.
  destruct (accept_conditions L self p f) as [-> ->]. reflexivity.
Qed.

(** X6.  An empty entry in the configured [exclude_keywords] (which is
    what an empty setting, or one with a trailing comma, produces) matches
    every biography, so the filter then accepts no profile at all. *)
Theorem empty_exclude_keyword_rejects_all (L : libraries) (self : ProfileFilter.t)
  (p : profile_data) (f : user_filters) :
  In "" (ProfileFilter.exclude_keywords self) ->
  fst (ProfileFilter.should_target_profile L self p f) = false.
Proof.
  intros Hin. destruct (accept_conditions L self p f) as [-> _]. unfold passes_all.
  rewrite (any_in_witness _ "" _ Hin (contains_empty _)).
  cbn [negb]. rewrite andb_false_r. reflexivity.
Qed.

Lemma empty_exclude_keyword_rejects_all_witness :
  ProfileFilter.parse_exclude_keywords "" = [""]
  /\ ProfileFilter.parse_exclude_keywords "escort, Premium," = ["escort"; "premium"; ""]
  /\ fst (ProfileFilter.should_target_profile offline_libraries
            (ProfileFilter.mk (Py.float_lit "0.5") (Py.float_lit "15.0") true true
               (ProfileFilter.parse_exclude_keywords ""))
            (sample_profile 5000 "mom of 3 in Austin, Texas" "3.2")
            (default_filters [] [] 1000)) = false.
Proof.
  split; [reflexivity|]. split; [reflexivity|].
  apply empty_exclude_keyword_rejects_all. left. reflexivity.
Defined.

(** X7.  [apply_all_filters] accepts exactly when the user's keyword
    tests let the profile through (some include keyword occurs in the
    lower-cased biography when the list is not empty, and no exclude keyword
    does) and [should_target_profile] accepts it. *)
Theorem apply_all_filters_accepts_iff (L : libraries) (user : user_filters)
  (filtering : ProfileFilter.t) (p : profile_data) :
  fst (HunterOrchestrator.apply_all_filters L user filtering p)
  = (match include_keywords user with
     | [] => true
     | ks => existsb (fun k => Py.contains (Py.lower k) (Py.lower (bio p))) ks
     end)
    && negb (existsb (fun k => Py.contains (Py.lower k) (Py.lower (bio p)))
               (exclude_keywords user))
    && fst (ProfileFilter.should_target_profile L filtering p user).
Proof.
  unfold HunterOrchestrator.apply_all_filters.
  assert (Hfind : forall ks : list string,
            existsb (fun k => Py.contains (Py.lower k) (Py.lower (bio p))) ks
            = match List.find (fun k => Py.contains (Py.lower k) (Py.lower (bio p))) ks with
              | Some _ => true | None => false end).
  { induction ks as [|k ks IH]; [reflexivity|]. cbn.
    destruct (Py.contains (Py.lower k) (Py.lower (bio p))); [reflexivity | exact IH]. }
  rewrite (Hfind (exclude_keywords user)).
  destruct (include_keywords user) as [|k ks].
  - cbn [andb]. destruct (List.find _ _); reflexivity.
  - destruct (existsb _ (k :: ks)); cbn [negb andb]; [|reflexivity].
    destruct (List.find _ _); reflexivity.
Qed.

(** ** ProfileValidator *)

Section ValidatorFacts.
Import Py ProfileValidator.

Ltac split_validation p :=
  unfold validate_profile_data;
  destruct (String.eqb (username p) "");
  destruct (follower_count p =? 0) eqn:Efc;
  destruct (post_count p =? 0);
  destruct (String.eqb (bio p) "");
  destruct (10000000 <? follower_count p);
  destruct (fltb (float_of_int 20) (engagement_rate p));
  destruct (fltb (engagement_rate p) (float_lit "0.1") && (1000 <? follower_count p));
  destruct ((String.length (bio p) <? 10)%nat);
  destruct (any_in suspicious_keywords (lower (bio p))).

Lemma validation_summary (p : profile_data) :
  let r := validate_profile_data p in
  is_valid r
  = negb (String.eqb (username p) "") && negb (follower_count p =? 0)
    && negb (post_count p =? 0) && negb (String.eqb (bio p) "")
  /\ -20 <= quality_score r <= 100
  /\ (is_valid r = true -> 65 <= quality_score r)
  /\ (follower_count p = 0 -> quality_score r <= 70).
Proof.
  cbv zeta.
  assert (Hz : follower_count p = 0 -> (follower_count p =? 0) = true)
    by (intros ->; reflexivity).
  split_validation p; cbn;
    (split; [reflexivity|]); (split; [lia|]);
    (split; [first [discriminate | intros _; lia]|]);
    intros H0; first [lia | specialize (Hz H0); discriminate].
Qed.

End ValidatorFacts.

(** X8.  [validate_profile_data] declares a profile valid exactly when
    its username and biography are not empty and its follower and post
    counts are not zero; warnings never make a profile invalid. *)
Theorem profile_valid_iff (p : profile_data) :
  ProfileValidator.is_valid (ProfileValidator.validate_profile_data p) = true
  <-> username p <> "" /\ follower_count p <> 0 /\ post_count p <> 0 /\ bio p <> "".
Proof.
  destruct (validation_summary p) as [-> _].
  rewrite !andb_true_iff, !negb_true_iff, !String.eqb_neq, !Z.eqb_neq. tauto.
Qed.

(** X9.  The quality score always lies between -20 and 100; a valid
    profile scores at least 65, and a profile with zero followers (which is
    penalised twice, as a missing field and as a zero count) at most 70. *)
Theorem quality_score_bounds (p : profile_data) :
  -20 <= ProfileValidator.quality_score (ProfileValidator.validate_profile_data p) <= 100
  /\ (ProfileValidator.is_valid (ProfileValidator.validate_profile_data p) = true ->
      65 <= ProfileValidator.quality_score (ProfileValidator.validate_profile_data p))
  /\ (follower_count p = 0 ->
      ProfileValidator.quality_score (ProfileValidator.validate_profile_data p) <= 70).
Proof. apply (validation_summary p). Qed.

Lemma quality_score_bounds_witness :
  65 <= ProfileValidator.quality_score
          (ProfileValidator.validate_profile_data (sample_profile 20000000 "bot" "50.0"))
  /\ ProfileValidator.quality_score
       (ProfileValidator.validate_profile_data (sample_profile 0 "" "50.0")) <= 70.
Proof.
  split.
  - apply (quality_score_bounds (sample_profile 20000000 "bot" "50.0")).
    vm_compute. reflexivity.
  - apply (quality_score_bounds (sample_profile 0 "" "50.0")). reflexivity.
Defined.

(** The lower bound for valid profiles is reached. *)
Example quality_score_65 :
  ProfileValidator.quality_score
    (ProfileValidator.validate_profile_data (sample_profile 20000000 "bot" "50.0")) = 65.
Proof. vm_compute. reflexivity. Qed.

(** X10.  A fetched page whose biography is empty, or whose follower or
    post count reads as zero, is dropped by [process_single_profile] before
    any filter sees it: nothing is returned and the valid-profile counter
    stays, although the identifier is marked seen and counted as scanned. *)
Theorem incomplete_profile_is_dropped (W : HunterOrchestrator.web) (u : string)
  (o : HunterOrchestrator.t) (a : profile_data) :
  u ∉ SessionManager.seen_profiles (HunterOrchestrator.session o) ->
  HunterOrchestrator.profile_page W (length (HunterOrchestrator.fetched o)) u
    = HunterOrchestrator.Page a ->
  bio a = "" \/ follower_count a = 0 \/ post_count a = 0 ->
  let r := HunterOrchestrator.process_single_profile W u o in
  snd r = None
  /\ HunterOrchestrator.valid_profiles_processed (fst r)
     = HunterOrchestrator.valid_profiles_processed o
  /\ HunterOrchestrator.total_profiles_scanned (fst r)
     = HunterOrchestrator.total_profiles_scanned o + 1
  /\ u ∈ SessionManager.seen_profiles (HunterOrchestrator.session (fst r)).
Proof.
  intros Hout Hpage Hbad. cbv zeta.
  unfold HunterOrchestrator.process_single_profile, SessionManager.is_profile_seen.
  rewrite bool_decide_eq_false_2 by exact Hout.
  unfold HunterOrchestrator.get_profile_data. rewrite Hpage.
  unfold HunterOrchestrator.validate_and_score_profile.
  match goal with |- context [ProfileValidator.validate_profile_data ?q] =>
    destruct (validation_summary q) as [Hv _];
    assert (Hinv : ProfileValidator.is_valid (ProfileValidator.validate_profile_data q)
                   = false)
  end.
  { rewrite Hv. cbn [username follower_count post_count bio].
    destruct Hbad as [-> | [-> | ->]]; cbn;
      rewrite ?andb_false_r; reflexivity. }
  rewrite Hinv. cbn.
  repeat split; try reflexivity.
  apply elem_of_union. left. apply elem_of_singleton. reflexivity.
Qed.

Lemma incomplete_profile_is_dropped_witness :
  let W := {| HunterOrchestrator.profiles_from_hashtags := fun _ => ["erin"];
              HunterOrchestrator.profile_page := fun _ _ =>
                HunterOrchestrator.Page (sample_profile 5000 "" "3.2");
              HunterOrchestrator.followers_list := fun _ _ => [] |} in
  snd (HunterOrchestrator.process_single_profile W "erin"
         (HunterOrchestrator.init "2026-01-01T00:00:00" SessionManager.Absent)) = None.
Proof.
  cbv zeta.
  eapply incomplete_profile_is_dropped.
  - apply (bool_decide_unpack _). vm_compute. exact I.
  - reflexivity.
  - left. reflexivity.
Defined.

(** ** ProxyManager: rotation *)

Section ProxyFacts.
Import Py ProxyManager.

(** What the selection loop does in [n] steps from an index in range:
    it never raises; it stops at the first entry, in cyclic order from the
    index, that is not in [failed_proxies]; otherwise all [n] entries are
    failed. *)
Lemma get_next_proxy_loop_spec (n : nat) (pm : t) :
  (current_proxy_index pm < length (proxies pm))%nat ->
  let len := length (proxies pm) in
  let i := current_proxy_index pm in
  match get_next_proxy_loop n pm with
  | (pm', Returns None) =>
      (forall j, (j < n)%nat ->
         exists raw, proxies pm !! ((i + j) mod len)%nat = Some raw
                     /\ raw ∈ failed_proxies pm)
      /\ current_proxy_index pm' = ((i + n) mod len)%nat
      /\ proxies pm' = proxies pm /\ failed_proxies pm' = failed_proxies pm
  | (pm', Returns (Some d)) =>
      exists j raw,
        (j < n)%nat
        /\ proxies pm !! ((i + j) mod len)%nat = Some raw
        /\ (raw ∉ failed_proxies pm)
        /\ d = format_proxy raw
        /\ (forall j', (j' < j)%nat ->
              exists raw', proxies pm !! ((i + j') mod len)%nat = Some raw'
                           /\ raw' ∈ failed_proxies pm)
        /\ current_proxy_index pm' = ((i + j + 1) mod len)%nat
        /\ proxies pm' = proxies pm /\ failed_proxies pm' = failed_proxies pm
  | (_, Raises _) => False
  end.
Proof.
  revert pm. induction n as [|n IH]; intros pm Hi; cbv zeta.
  - cbn [get_next_proxy_loop]. split; [intros j Hj; lia|].
    rewrite Nat.add_0_r, Nat.mod_small by exact Hi. auto.
  - cbn [get_next_proxy_loop].
    destruct (proxies pm !! current_proxy_index pm) as [raw|] eqn:Hraw.
    2:{ apply lookup_ge_None in Hraw. lia. }
    destruct (decide (raw ∈ failed_proxies pm)) as [Hf|Hf].
    + set (pm1 := mk (proxies pm)
                     ((current_proxy_index pm + 1) mod length (proxies pm))%nat
                     (failed_proxies pm)).
      assert (Hi1 : (current_proxy_index pm1 < length (proxies pm1))%nat).
      { cbn. apply Nat.mod_upper_bound. lia. }
      specialize (IH pm1 Hi1). cbv zeta in IH.
      cbn [proxies current_proxy_index failed_proxies pm1] in IH.
      assert (Hshift : forall k,
                (((current_proxy_index pm + 1) mod length (proxies pm) + k)
                   mod length (proxies pm)
                 = (current_proxy_index pm + S k) mod length (proxies pm))%nat).
      { intros k. rewrite Nat.Div0.add_mod_idemp_l. f_equal. lia. }
      destruct (get_next_proxy_loop n pm1) as [pm' [[d|]|e]]; [| |exact IH].
      * destruct IH as (j & raw' & Hj & Hl & Hnf & Hd & Hprev & Hidx & Hp & Hfl).
        exists (S j), raw'. rewrite Hshift in Hl.
        split; [lia|]. split; [exact Hl|]. split; [exact Hnf|]. split; [exact Hd|].
        split.
        { intros j' Hj'. destruct j' as [|j'].
          - exists raw. rewrite Nat.add_0_r, Nat.mod_small by exact Hi. auto.
          - destruct (Hprev j') as (r & Hr1 & Hr2); [lia|].
            exists r. rewrite Hshift in Hr1. auto. }
        split; [|auto].
        rewrite Hidx, <- Nat.add_assoc, Nat.Div0.add_mod_idemp_l.
        f_equal. lia.
      * destruct IH as (Hall & Hidx & Hp & Hfl). split.
        { intros j Hj. destruct j as [|j].
          - exists raw. rewrite Nat.add_0_r, Nat.mod_small by exact Hi. auto.
          - destruct (Hall j) as (r & Hr1 & Hr2); [lia|].
            exists r. rewrite Hshift in Hr1. auto. }
        split; [|auto]. rewrite Hidx, Hshift. reflexivity.
    + exists 0%nat, raw. rewrite Nat.add_0_r, Nat.mod_small by exact Hi.
      split; [lia|]. split; [exact Hraw|]. split; [exact Hf|]. split; [reflexivity|].
      split; [intros j' Hj'; lia|]. cbn. auto.
Qed.

(** The selection only looks at [failed_proxies] through the pool lines. *)
Lemma get_next_proxy_loop_failed (n : nat) (pool : list string) (i : nat)
  (failed failed' : gset string) :
  (forall r, r ∈ pool -> (r ∈ failed <-> r ∈ failed')) ->
  snd (get_next_proxy_loop n (mk pool i failed))
  = snd (get_next_proxy_loop n (mk pool i failed'))
  /\ current_proxy_index (fst (get_next_proxy_loop n (mk pool i failed)))
     = current_proxy_index (fst (get_next_proxy_loop n (mk pool i failed'))).
Proof.
  intros Hagree. revert i. induction n as [|n IH]; intros i; cbn [get_next_proxy_loop].
  - split; reflexivity.
  - cbn [proxies current_proxy_index failed_proxies].
    destruct (pool !! i) as [raw|] eqn:Hraw; [|split; reflexivity].
    assert (Hin : raw ∈ pool) by (eapply list_elem_of_lookup_2; exact Hraw).
    destruct (decide (raw ∈ failed)) as [Hf|Hf];
      destruct (decide (raw ∈ failed')) as [Hf'|Hf'].
    + apply IH.
    + exfalso. apply Hf'. apply Hagree; assumption.
    + exfalso. apply Hf. apply Hagree; assumption.
    + split; reflexivity.
Qed.

Lemma format_proxy_url (raw : string) :
  format_proxy raw = []
  \/ exists rest, format_proxy raw
                  = [("http", "http://" +:+ rest); ("https", "http://" +:+ rest)].
Proof.
  unfold format_proxy. destruct (split ":" raw) as [|ip [|port rest]]; [left; reflexivity..|].
  right. destruct rest as [|user [|pass rest]]; eexists; reflexivity.
Qed.

End ProxyFacts.

(** X11.  From an index within the pool, [get_next_proxy] never raises
    and leaves the index within the pool; the pool and the failed set are
    not touched. *)
Theorem get_next_proxy_keeps_index_in_range (pm : ProxyManager.t) :
  (ProxyManager.current_proxy_index pm < length (ProxyManager.proxies pm))%nat ->
  let r := ProxyManager.get_next_proxy pm in
  (exists v, snd r = Py.Returns v)
  /\ (ProxyManager.current_proxy_index (fst r) < length (ProxyManager.proxies (fst r)))%nat
  /\ ProxyManager.proxies (fst r) = ProxyManager.proxies pm
  /\ ProxyManager.failed_proxies (fst r) = ProxyManager.failed_proxies pm.
Proof.
  intros Hi. cbv zeta. unfold ProxyManager.get_next_proxy.
  destruct (ProxyManager.proxies pm) as [|x xs] eqn:Hp; [cbn in Hi; lia|].
  rewrite <- Hp in *.
  pose proof (get_next_proxy_loop_spec (length (ProxyManager.proxies pm)) pm Hi) as H.
  cbv zeta in H.
  destruct (ProxyManager.get_next_proxy_loop _ pm) as [pm' [[d|]|e]]; [| |contradiction].
  - destruct H as (j & raw & _ & _ & _ & _ & _ & Hidx & Hpool & Hf).
    cbn [fst snd]. split; [eexists; reflexivity|]. rewrite Hpool, Hidx.
    split; [apply Nat.mod_upper_bound; lia | auto].
  - destruct H as (_ & Hidx & Hpool & Hf).
    cbn [fst snd]. split; [eexists; reflexivity|]. rewrite Hpool, Hidx.
    split; [apply Nat.mod_upper_bound; lia | auto].
Qed.

Lemma get_next_proxy_keeps_index_in_range_witness :
  let r := ProxyManager.get_next_proxy (ProxyManager.mk ["a:1"; "b:2"] 1 ∅) in
  (ProxyManager.current_proxy_index (fst r) < length (ProxyManager.proxies (fst r)))%nat.
Proof.
  cbv zeta.
  destruct (get_next_proxy_keeps_index_in_range (ProxyManager.mk ["a:1"; "b:2"] 1 ∅))
    as (_ & H & _); [cbn; lia | exact H].
Defined.

(** X12.  What [get_next_proxy] hands out is the formatted form of a pool
    line that is not in the failed set, namely the first such line in cyclic
    order from the current index, and the index then points just after it. *)
Theorem get_next_proxy_selects_first_usable (pm : ProxyManager.t)
  (pm' : ProxyManager.t) (d : ProxyManager.proxy_dict) :
  (ProxyManager.current_proxy_index pm < length (ProxyManager.proxies pm))%nat ->
  ProxyManager.get_next_proxy pm = (pm', Py.Returns (Some d)) ->
  let len := length (ProxyManager.proxies pm) in
  let i := ProxyManager.current_proxy_index pm in
  exists j raw,
    (j < len)%nat
    /\ ProxyManager.proxies pm !! ((i + j) mod len)%nat = Some raw
    /\ (raw ∉ ProxyManager.failed_proxies pm)
    /\ d = ProxyManager.format_proxy raw
    /\ (forall j', (j' < j)%nat ->
          exists raw', ProxyManager.proxies pm !! ((i + j') mod len)%nat = Some raw'
                       /\ raw' ∈ ProxyManager.failed_proxies pm)
    /\ ProxyManager.current_proxy_index pm' = ((i + j + 1) mod len)%nat.
Proof.
  intros Hi Hget. cbv zeta. unfold ProxyManager.get_next_proxy in Hget.
  destruct (ProxyManager.proxies pm) as [|x xs] eqn:Hp; [cbn in Hi; lia|].
  rewrite <- Hp in *.
  pose proof (get_next_proxy_loop_spec (length (ProxyManager.proxies pm)) pm Hi) as H.
  cbv zeta in H. rewrite Hget in H.
  destruct H as (j & raw & Hj & Hl & Hnf & Hd & Hprev & Hidx & _).
  exists j, raw. auto 10.
Qed.

Lemma get_next_proxy_selects_first_usable_witness :
  exists raw,
    (raw ∉ ({["b:2"]} : gset string))
    /\ [("http", "http://c:3"); ("https", "http://c:3")] = ProxyManager.format_proxy raw.
Proof.
  destruct (get_next_proxy_selects_first_usable
              (ProxyManager.mk ["a:1"; "b:2"; "c:3"] 1 {["b:2"]})
              (ProxyManager.mk ["a:1"; "b:2"; "c:3"] 0 {["b:2"]})
              [("http", "http://c:3"); ("https", "http://c:3")])
    as (j & raw & _ & _ & Hnf & Hd & _).
  - cbn. lia.
  - vm_compute. reflexivity.
  - exists raw. split; [exact Hnf | exact Hd].
Defined.

(** X13.  From an index within the pool, [get_next_proxy] returns [None]
    exactly when every pool line is in the failed set, and the index is then
    back where it was. *)
Theorem get_next_proxy_none_iff_all_failed (pm : ProxyManager.t) :
  (ProxyManager.current_proxy_index pm < length (ProxyManager.proxies pm))%nat ->
  (snd (ProxyManager.get_next_proxy pm) = Py.Returns None
   <-> forall raw, raw ∈ ProxyManager.proxies pm -> raw ∈ ProxyManager.failed_proxies pm)
  /\ (snd (ProxyManager.get_next_proxy pm) = Py.Returns None ->
      ProxyManager.current_proxy_index (fst (ProxyManager.get_next_proxy pm))
      = ProxyManager.current_proxy_index pm).
Proof.
  intros Hi. unfold ProxyManager.get_next_proxy.
  destruct (ProxyManager.proxies pm) as [|x xs] eqn:Hp; [cbn in Hi; lia|].
  rewrite <- Hp in *.
  pose proof (get_next_proxy_loop_spec (length (ProxyManager.proxies pm)) pm Hi) as H.
  cbv zeta in H.
  destruct (ProxyManager.get_next_proxy_loop _ pm) as [pm' [[d|]|e]]; [| |contradiction];
    cbn [fst snd].
  - destruct H as (j & raw & Hj & Hl & Hnf & _).
    split; [|discriminate]. split; [discriminate|].
    intros Hall. exfalso. apply Hnf, Hall.
    eapply list_elem_of_lookup_2. exact Hl.
  - destruct H as (Hall & Hidx & _). split.
    + split; [|reflexivity]. intros _ raw Hraw.
      apply list_elem_of_lookup_1 in Hraw. destruct Hraw as [k Hk].
      pose proof (lookup_lt_Some _ _ _ Hk) as Hklt.
      set (len := length (ProxyManager.proxies pm)) in *.
      set (i := ProxyManager.current_proxy_index pm) in *.
      destruct (Hall ((k + len - i) mod len)%nat) as (r & Hr1 & Hr2).
      { apply Nat.mod_upper_bound. lia. }
      rewrite Nat.Div0.add_mod_idemp_r in Hr1.
      replace (i + (k + len - i))%nat with (k + 1 * len)%nat in Hr1 by lia.
      rewrite Nat.Div0.mod_add, Nat.mod_small in Hr1 by exact Hklt.
      congruence.
    + intros _. rewrite Hidx.
      replace (ProxyManager.current_proxy_index pm + length (ProxyManager.proxies pm))%nat
        with (ProxyManager.current_proxy_index pm + 1 * length (ProxyManager.proxies pm))%nat
        by lia.
      rewrite Nat.Div0.mod_add. apply Nat.mod_small. exact Hi.
Qed.

Lemma get_next_proxy_none_iff_all_failed_witness :
  snd (ProxyManager.get_next_proxy (ProxyManager.mk ["a:1"; "b:2"] 1 {["a:1"; "b:2"]}))
  = Py.Returns None.
Proof.
  apply (get_next_proxy_none_iff_all_failed
           (ProxyManager.mk ["a:1"; "b:2"] 1 {["a:1"; "b:2"]})).
  - cbn. lia.
  - cbn [ProxyManager.proxies ProxyManager.failed_proxies]. intros raw Hraw.
    apply (bool_decide_unpack _).
    apply list_elem_of_In in Hraw. cbn in Hraw.
    destruct Hraw as [<-|[<-|[]]]; vm_compute; exact I.
Defined.

(** X14.  In a pool none of whose lines starts with "http://", marking
    the dictionary of any proxy as failed has no effect on later selections:
    [get_next_proxy] returns what it would have returned without the mark. *)
Theorem mark_proxy_failed_has_no_effect (pm : ProxyManager.t) (raw : string) :
  (forall r, r ∈ ProxyManager.proxies pm -> Py.startswith "http://" r = false) ->
  snd (ProxyManager.get_next_proxy
         (ProxyManager.mark_proxy_failed (ProxyManager.format_proxy raw) pm))
  = snd (ProxyManager.get_next_proxy pm).
Proof.
  intros Hpool.
  destruct (format_proxy_url raw) as [-> | [rest ->]]; [reflexivity|].
  unfold ProxyManager.mark_proxy_failed. cbn [ProxyManager.dict_get String.eqb].
  cbn. unfold ProxyManager.get_next_proxy. cbn [ProxyManager.proxies].
  destruct pm as [pool i failed]. cbn [ProxyManager.proxies ProxyManager.current_proxy_index
                                       ProxyManager.failed_proxies] in *.
  destruct pool as [|x xs]; [reflexivity|].
  apply get_next_proxy_loop_failed. intros r Hr. split.
  - intros Hu. apply elem_of_union in Hu. destruct Hu as [Hu|Hu]; [|exact Hu].
    apply elem_of_singleton in Hu. subst r.
    specialize (Hpool _ Hr). exfalso.
    assert (Hs : Py.startswith "http://" ("http://" +:+ rest) = true)
      by (apply startswith_app; exists rest; reflexivity).
    congruence.
  - intros Hf. apply elem_of_union. right. exact Hf.
Qed.

Lemma mark_proxy_failed_has_no_effect_witness :
  snd (ProxyManager.get_next_proxy
         (ProxyManager.mark_proxy_failed (ProxyManager.format_proxy "b:2:u:pw")
            (ProxyManager.mk ["a:1"; "b:2:u:pw"] 1 ∅)))
  = snd (ProxyManager.get_next_proxy (ProxyManager.mk ["a:1"; "b:2:u:pw"] 1 ∅)).
Proof.
  apply mark_proxy_failed_has_no_effect.
  cbn [ProxyManager.proxies]. intros r Hr.
  apply list_elem_of_In in Hr. cbn in Hr.
  destruct Hr as [<-|[<-|[]]]; reflexivity.
Defined.

(** ** Numerals: characters and digits *)

Section NumeralFacts.
Import Py.

Abbreviation chars := list_ascii_of_string.

Lemma contains_char (c : ascii) (s : string) :
  contains (String c "") s = true <-> In c (chars s).
Proof.
  induction s as [|x s IH]; cbn [contains startswith chars list_ascii_of_string In].
  - split; [discriminate | tauto].
  - rewrite orb_true_iff, IH. destruct (Ascii.eqb_spec c x) as [->|Hne].
    + split; [intros _; left; reflexivity | intros _; left; reflexivity].
    + split; [intros [H|H]; [discriminate | right; exact H]
             | intros [H|H]; [congruence | right; exact H]].
Qed.


Lemma chars_app (a b : string) : chars (a +:+ b) = chars a ++ chars b.
Proof.
  induction a as [|x a IH]; [reflexivity|].
  change (x :: chars (a +:+ b) = x :: (chars a ++ chars b)). rewrite IH. reflexivity.
Qed.


(** Characters of a rewritten string: those kept and those of [new]. *)
Lemma replace_char_chars (c : ascii) (new s : string) (x : ascii) :
  In x (chars (replace_char c new s))
  <-> (x <> c /\ In x (chars s)) \/ (In c (chars s) /\ In x (chars new)).
Proof.
  induction s as [|y s IH]; cbn [replace_char chars list_ascii_of_string In].
  - tauto.
  - destruct (Ascii.eqb_spec y c) as [->|Hne].
    + rewrite chars_app, in_app_iff, IH. split.
      * intros [H|[[H1 H2]|[H1 H2]]].
        -- right. split; [left; reflexivity | exact H].
        -- left. split; [exact H1 | right; exact H2].
        -- right. split; [right; exact H1 | exact H2].
      * intros [[H1 [H2|H2]]|[_ H2]].
        -- congruence.
        -- right. left. split; assumption.
        -- left. exact H2.
    + cbn [chars list_ascii_of_string In]. rewrite IH. split.
      * intros [H|[[H1 H2]|[H1 H2]]].
        -- left. split; [congruence | left; exact H].
        -- left. split; [exact H1 | right; exact H2].
        -- right. split; [right; exact H1 | exact H2].
      * intros [[H1 [H2|H2]]|[[H1|H1] H2]].
        -- left. exact H2.
        -- right. left. split; assumption.
        -- congruence.
        -- right. right. split; assumption.
Qed.

Lemma lstrip_chars (s : string) (x : ascii) :
  is_space x = false -> In x (chars s) -> In x (chars (lstrip s)).
Proof.
  intros Hx. induction s as [|y s IH]; [tauto|]. cbn [lstrip].
  destruct (is_space y) eqn:Hy; [|tauto].
  intros [->|H]; [congruence | exact (IH H)].
Qed.

Lemma rstrip_chars (s : string) (x : ascii) :
  is_space x = false -> In x (chars s) -> In x (chars (rstrip s)).
Proof.
  intros Hx. induction s as [|y s IH]; [tauto|]. cbn [rstrip].
  intros [->|H].
  - destruct (rstrip s); [rewrite Hx|]; left; reflexivity.
  - specialize (IH H). destruct (rstrip s) as [|z r]; [destruct IH|].
    right. exact IH.
Qed.


Lemma digitpart_eq (c : ascii) (s' : string) :
  digitpart (String c s')
  = match digit_of c with
    | Some d =>
        match s' with
        | String "_" (String c2 _ as s'') =>
            match digit_of c2 with
            | Some _ => let '(ds, r) := digitpart s'' in (d :: ds, r)
            | None => ([d], s')
            end
        | _ => let '(ds, r) := digitpart s' in (d :: ds, r)
        end
    | None => ([], String c s')
    end.
Proof. reflexivity. Qed.

(** One digit, when the next character is not an underscore. *)
Lemma digitpart_step (c : ascii) (d : Z) (s' : string) :
  digit_of c = Some d ->
  (forall t, s' <> String "_" t) ->
  digitpart (String c s') = (d :: fst (digitpart s'), snd (digitpart s')).
Proof.
  intros Hc Hs. rewrite digitpart_eq, Hc.
  destruct s' as [|c1 s1]; [destruct (digitpart ""); reflexivity|].
  destruct c1 as [[] [] [] [] [] [] [] []];
    try (destruct (digitpart _); reflexivity).
  exfalso. apply (Hs s1). reflexivity.
Qed.

(** A string that [digitpart] reads to its end holds digits and
    underscores only. *)
Lemma digitpart_reads_all (n : nat) (s : string) :
  (String.length s <= n)%nat ->
  snd (digitpart s) = "" ->
  forall x, In x (chars s) -> digit_of x <> None \/ x = "_"%char.
Proof.
  revert s. induction n as [|n IH]; intros s Hn Hs x Hx.
  - destruct s; [destruct Hx | cbn in Hn; lia].
  - destruct s as [|c s]; [destruct Hx|].
    destruct (digit_of c) as [d|] eqn:Hc;
      [|rewrite digitpart_eq, Hc in Hs; discriminate].
    destruct Hx as [<-|Hx]; [left; congruence|].
    destruct s as [|c1 s1]; [destruct Hx|].
    destruct (Ascii.eqb_spec c1 "_"%char) as [->|Hne].
    + rewrite digitpart_eq, Hc in Hs. destruct s1 as [|c2 s2]; [discriminate|].
      destruct (digit_of c2) eqn:Hc2; [|discriminate].
      destruct Hx as [<-|Hx]; [right; reflexivity|].
      apply (IH (String c2 s2)); [cbn in Hn |- *; lia | | exact Hx].
      destruct (digitpart (String c2 s2)); exact Hs.
    + rewrite (digitpart_step c d (String c1 s1) Hc) in Hs
        by (intros t [= H _]; apply Hne; exact H).
      apply (IH (String c1 s1)); [cbn in Hn |- *; lia | exact Hs | exact Hx].
Qed.

Lemma int_of_str_raises (s : string) (e : exn) :
  int_of_str s = Raises e -> e = ValueError.
Proof.
  unfold int_of_str. destruct (sign_of (strip s)) as [neg r].
  destruct (digitpart r) as [[|d ds] [|c rest]]; congruence.
Qed.

Lemma float_of_str_raises (s : string) (e : exn) :
  float_of_str s = Raises e -> e = ValueError.
Proof.
  unfold float_of_str. destruct (sign_of (strip s)) as [neg r].
  destruct (_ || _); [discriminate|]. destruct (String.eqb _ "nan"); [discriminate|].
  destruct (digitpart r) as [ip r1].
  destruct (match r1 with String "." r1' => digitpart r1' | _ => ([], r1) end) as [fp r2].
  destruct ip, fp; try congruence; destruct (exponent_of r2); congruence.
Qed.

Lemma sign_of_chars (s : string) (x : ascii) :
  In x (chars s) -> x <> "-"%char -> x <> "+"%char -> In x (chars (snd (sign_of s))).
Proof.
  intros Hin Hm Hp. destruct s as [|c t]; [exact Hin|].
  destruct c as [[] [] [] [] [] [] [] []]; cbn [sign_of snd]; try exact Hin;
    (destruct Hin as [<-|Hin];
     [exfalso; first [apply Hm; reflexivity | apply Hp; reflexivity] | exact Hin]).
Qed.

(** A numeral with a character that is neither a digit, a sign, an
    underscore nor white space is not an [int]. *)
Lemma int_of_str_foreign (s : string) (x : ascii) :
  In x (chars s) -> is_space x = false -> digit_of x = None ->
  x <> "_"%char -> x <> "-"%char -> x <> "+"%char ->
  int_of_str s = Raises ValueError.
Proof.
  intros Hin Hsp Hd Hu Hm Hp. unfold int_of_str.
  assert (Hr : In x (chars (snd (sign_of (strip s))))).
  { apply sign_of_chars; [|exact Hm | exact Hp].
    unfold strip. apply lstrip_chars, rstrip_chars; assumption. }
  destruct (sign_of (strip s)) as [neg r]. cbn [snd] in Hr.
  destruct (digitpart r) as [ds rest] eqn:Hdp.
  destruct ds as [|d ds]; [reflexivity|]. destruct rest as [|c rest]; [|reflexivity].
  exfalso.
  destruct (digitpart_reads_all (String.length r) r (Nat.le_refl _)) with (x := x)
    as [H|H]; [rewrite Hdp; reflexivity | exact Hr | congruence | congruence].
Qed.

End NumeralFacts.

(** ** Decimal numerals as printed by [str] *)

Section DecimalFacts.
Import Py.

Abbreviation chars := list_ascii_of_string.
Abbreviation su := NilEmpty.string_of_uint.
Abbreviation horner := (fun acc d : Z => 10 * acc + d).











End DecimalFacts.

Section CountFacts.
Import Py.

Abbreviation chars := list_ascii_of_string.
Abbreviation su := NilEmpty.string_of_uint.





End CountFacts.



(** X17.  A count element whose text holds a decimal point ("12.3K",
    "1.5M", "3.0") is read as 0: once the suffix has been rewritten to zeros
    the text goes to [int], which does not accept the point. *)
Theorem read_stat_decimal_is_zero (text : string) :
  Py.contains "." text = true ->
  StatsExtraction.read_stat text = Py.Returns 0.
Proof.
  intros Hdot. apply contains_char in Hdot.
  unfold StatsExtraction.read_stat, StatsExtraction.stat_text.
  set (t := Py.replace_char "M" "000000"
              (Py.replace_char "K" "000" (Py.replace_char "," "" text))).
  assert (Ht : In "."%char (list_ascii_of_string t)).
  { unfold t. apply replace_char_chars. left. split; [discriminate|].
    apply replace_char_chars. left. split; [discriminate|].
    apply replace_char_chars. left. split; [discriminate | exact Hdot]. }
  assert (HK : ~ In "K"%char (list_ascii_of_string t)).
  { unfold t. intros H. apply replace_char_chars in H.
    destruct H as [[_ H]|[_ H]].
    - apply replace_char_chars in H. destruct H as [[H _]|[_ H]]; [congruence|].
      cbn in H. intuition discriminate.
    - cbn in H. intuition discriminate. }
  assert (HM : ~ In "M"%char (list_ascii_of_string t)).
  { unfold t. intros H. apply replace_char_chars in H.
    destruct H as [[H _]|[_ H]]; [congruence|]. cbn in H. intuition discriminate. }
  unfold ParseCount.parse_count, ParseCount.parse_count_try.
  set (u := Py.replace_char " " "" (Py.replace_char "," "" t)).
  assert (Hu : forall x, In x (list_ascii_of_string u) -> In x (list_ascii_of_string t)).
  { unfold u. intros x H. apply replace_char_chars in H.
    destruct H as [[_ H]|[_ H]]; [|destruct H].
    apply replace_char_chars in H. destruct H as [[_ H]|[_ H]]; [exact H | destruct H]. }
  assert (Hud : In "."%char (list_ascii_of_string u)).
  { unfold u. apply replace_char_chars. left. split; [discriminate|].
    apply replace_char_chars. left. split; [discriminate | exact Ht]. }
  assert (EK : Py.contains "K" u = false).
  { apply not_true_is_false. rewrite contains_char. intros H. apply HK, Hu, H. }
  assert (EM : Py.contains "M" u = false).
  { apply not_true_is_false. rewrite contains_char. intros H. apply HM, Hu, H. }
  rewrite EK, EM.
  rewrite (int_of_str_foreign u "."%char Hud); [reflexivity | reflexivity | reflexivity
                                                | discriminate | discriminate | discriminate].
Qed.

Lemma read_stat_decimal_is_zero_witness :
  StatsExtraction.read_stat "12.3K" = Py.Returns 0.
Proof. apply read_stat_decimal_is_zero. reflexivity. Defined.

(** The same element text, seen by the loop that assigns the counts. *)
Example extract_stats_decimal_followers :
  StatsExtraction.extract_stats
    [("12.3K", "12.3K followers"); ("1,024", "1,024 following"); ("87", "87 posts")]
    (StatsExtraction.mk_counts 0 0 0)
  = StatsExtraction.mk_counts 0 1024 87.
Proof. vm_compute. reflexivity. Qed.

(** X18.  [parse_count] lets no [ValueError] or [TypeError] through: the
    only exception that can leave it is [OverflowError], and only for a
    string that holds a "K" or an "M". *)
Theorem parse_count_raises_only_overflow (s : string) (e : Py.exn) :
  ParseCount.parse_count s = Py.Raises e ->
  e = Py.OverflowError /\ (Py.contains "K" s = true \/ Py.contains "M" s = true).
Proof.
  unfold ParseCount.parse_count, ParseCount.parse_count_try.
  set (u := Py.replace_char " " "" (Py.replace_char "," "" s)).
  assert (Hu : forall x, In x (list_ascii_of_string u) -> In x (list_ascii_of_string s)).
  { unfold u. intros x H. apply replace_char_chars in H.
    destruct H as [[_ H]|[_ H]]; [|destruct H].
    apply replace_char_chars in H. destruct H as [[_ H]|[_ H]]; [exact H | destruct H]. }
  assert (Hfloat : forall (t : string) (k : Z) (e' : Py.exn),
            match Py.bind (Py.float_of_str t)
                    (fun x => Py.int_of_float (Py.fmul x (Py.float_of_int k))) with
            | Py.Raises Py.ValueError | Py.Raises Py.TypeError => Py.Returns 0
            | r => r
            end = Py.Raises e' -> e' = Py.OverflowError).
  { intros t k e'. destruct (Py.float_of_str t) as [x|e0] eqn:Ef; cbn [Py.bind].
    - destruct (Py.fmul x (Py.float_of_int k)) as [b|b| |b m ex]; cbn [Py.int_of_float];
        congruence.
    - apply float_of_str_raises in Ef. subst e0. discriminate. }
  destruct (Py.contains "K" u) eqn:EK.
  - intros H. apply Hfloat in H. split; [exact H|]. left.
    apply contains_char. apply Hu. apply contains_char. exact EK.
  - destruct (Py.contains "M" u) eqn:EM.
    + intros H. apply Hfloat in H. split; [exact H|]. right.
      apply contains_char. apply Hu. apply contains_char. exact EM.
    + destruct (Py.int_of_str u) as [v|e0] eqn:Ei; [discriminate|].
      apply int_of_str_raises in Ei. subst e0. discriminate.
Qed.

Lemma parse_count_raises_only_overflow_witness :
  Py.OverflowError = Py.OverflowError
  /\ (Py.contains "K" "1e400K" = true \/ Py.contains "M" "1e400K" = true).
Proof.
  apply (parse_count_raises_only_overflow "1e400K" Py.OverflowError).
  vm_compute. reflexivity.
Defined.

(** ** Orchestrator: what a run does to the session *)

Section RunFacts.
Import Py HunterOrchestrator.
Context (L : libraries) (W : web).
Context (user : user_filters) (filtering : ProfileFilter.t) (now : string).

Lemma scanned_since_refl (o : t) : scanned_since o o.
Proof.
  exists []. rewrite app_nil_r. cbn [length Z.of_nat].
  rewrite Z.add_0_r. repeat split; try reflexivity.
  cbn. symmetry. apply (left_id_L ∅ (∪)).
Qed.

Lemma scanned_since_trans (o1 o2 o3 : t) :
  scanned_since o1 o2 -> scanned_since o2 o3 -> scanned_since o1 o3.
Proof.
  intros (n1 & F1 & T1 & S1 & D1 & H1 & P1) (n2 & F2 & T2 & S2 & D2 & H2 & P2).
  exists (n1 ++ n2). rewrite F2, F1, T2, T1, S2, S1, D2, D1, H2, H1, P2, P1.
  rewrite length_app, Nat2Z.inj_add, list_to_set_app_L, <- app_assoc.
  repeat split; try reflexivity; try lia.
  rewrite (assoc_L (∪)). f_equal. apply (comm_L (∪)).
Qed.

(** One examination fetches at most one page and records nothing: the
    constructor call fails before [add_hvt] is reached. *)
Lemma examine_scanned (u src : string) (o : t) :
  scanned_since o (fst (examine L W user filtering now u src o))
  /\ forall hvt, snd (examine L W user filtering now u src o) <> Returns (Some hvt).
Proof.
  unfold examine.
  assert (Hp : scanned_since o (fst (process_single_profile W u o))).
  { unfold process_single_profile, SessionManager.is_profile_seen.
    destruct (bool_decide _); [apply scanned_since_refl|].
    exists [u]. unfold get_profile_data.
    destruct (profile_page W (length (fetched o)) u) as [| |a]; cbn;
      try (destruct (negb _); cbn);
      repeat split; try reflexivity; rewrite (right_id_L ∅ (∪)); reflexivity. }
  destruct (process_single_profile W u o) as [o1 [p|]]; cbn [fst] in Hp.
  - destruct (apply_all_filters L user filtering p) as [[|] reason].
    + cbn. split; [exact Hp | discriminate].
    + cbn. split; [exact Hp | discriminate].
  - cbn. split; [exact Hp | discriminate].
Qed.

Lemma seed_loop_scanned (l : list string) (acc : list UserProfile.t) (o : t) :
  scanned_since o (fst (seed_loop L W user filtering now l acc o))
  /\ (forall r, snd (seed_loop L W user filtering now l acc o) = Returns r -> r = acc)
  /\ total_profiles_scanned (fst (seed_loop L W user filtering now l acc o))
     <= total_profiles_scanned o + Z.of_nat (length l).
Proof.
  revert o. induction l as [|u l IH]; intros o; cbn [seed_loop].
  - cbn. split; [apply scanned_since_refl|]. split; [congruence | lia].
  - destruct (should_stop o).
    { cbn [fst snd]. split; [apply scanned_since_refl|]. split; [congruence | lia]. }
    destruct (examine_scanned u "initial_seed" o) as [H1 H2].
    pose proof (examine_total L W user filtering now u "initial_seed" o) as H3.
    destruct (examine L W user filtering now u "initial_seed" o) as [o1 [[hvt|]|e]];
      cbn [fst snd] in H1, H2, H3.
    + exfalso. apply (H2 hvt). reflexivity.
    + destruct (IH o1) as (I1 & I2 & I3). split; [|split].
      * eapply scanned_since_trans; eassumption.
      * exact I2.
      * cbn [length]. lia.
    + cbn [fst snd]. split; [exact H1|]. split; [discriminate | cbn [length]; lia].
Qed.

Lemma follower_loop_scanned (l : list string) (src : string)
  (acc : list UserProfile.t) (o : t) :
  scanned_since o (fst (follower_loop L W user filtering now l src acc o))
  /\ (forall r, snd (follower_loop L W user filtering now l src acc o) = Returns r -> r = acc)
  /\ (max_profiles user <= total_profiles_scanned o ->
      follower_loop L W user filtering now l src acc o = (o, Returns acc)).
Proof.
  revert o. induction l as [|u l IH]; intros o; cbn [follower_loop].
  - cbn. split; [apply scanned_since_refl|]. split; [congruence | reflexivity].
  - destruct (stop_or_budget user o) eqn:E.
    { cbn [fst snd]. split; [apply scanned_since_refl|]. split; [congruence | reflexivity]. }
    apply orb_false_iff in E. destruct E as [_ E]. apply Z.leb_gt in E.
    destruct (examine_scanned u src o) as [H1 H2].
    destruct (examine L W user filtering now u src o) as [o1 [[hvt|]|e]];
      cbn [fst snd] in H1, H2.
    + exfalso. apply (H2 hvt). reflexivity.
    + destruct (IH o1) as (I1 & I2 & _). split; [|split].
      * eapply scanned_since_trans; eassumption.
      * exact I2.
      * intros Hb. lia.
    + cbn [fst snd]. split; [exact H1|]. split; [discriminate | intros Hb; lia].
Qed.

Lemma source_loop_scanned (q acc : list UserProfile.t) (o : t) :
  scanned_since o (fst (source_loop L W user filtering now q acc o))
  /\ (forall r, snd (source_loop L W user filtering now q acc o) = Returns r -> r = acc)
  /\ (max_profiles user <= total_profiles_scanned o ->
      source_loop L W user filtering now q acc o = (o, Returns acc))
  /\ current_depth (fst (source_loop L W user filtering now q acc o)) = current_depth o.
Proof.
  assert (Hdepth_ex : forall u src o,
            current_depth (fst (examine L W user filtering now u src o)) = current_depth o).
  { intros u src o'. unfold examine, process_single_profile, get_profile_data.
    destruct (SessionManager.is_profile_seen u (session o')); [reflexivity|].
    destruct (profile_page W _ u) as [| |a]; cbn; try reflexivity.
    destruct (negb _); cbn; [reflexivity|].
    destruct (apply_all_filters L user filtering _) as [[|] reason]; reflexivity. }
  assert (Hdepth_fl : forall l src acc' o',
            current_depth (fst (follower_loop L W user filtering now l src acc' o'))
            = current_depth o').
  { induction l as [|u l IHl]; intros src acc' o'; cbn [follower_loop]; [reflexivity|].
    destruct (stop_or_budget user o'); [reflexivity|].
    pose proof (Hdepth_ex u src o') as Hd.
    destruct (examine L W user filtering now u src o') as [o1 [[hvt|]|e]]; cbn [fst] in Hd |- *.
    - rewrite IHl. exact Hd.
    - rewrite IHl. exact Hd.
    - exact Hd. }
  revert acc o. induction q as [|h q IH]; intros acc o; cbn [source_loop].
  - cbn. split; [apply scanned_since_refl|]. split; [congruence|]. split; reflexivity.
  - destruct (stop_or_budget user o) eqn:E.
    { cbn [fst snd]. split; [apply scanned_since_refl|]. split; [congruence|].
      split; reflexivity. }
    apply orb_false_iff in E. destruct E as [_ E]. apply Z.leb_gt in E.
    destruct (followers_list W _ _) as [|u l].
    { destruct (IH acc o) as (I1 & I2 & I3 & I4). split; [exact I1|]. split; [exact I2|].
      split; [exact I3 | exact I4]. }
    destruct (follower_loop_scanned (u :: l) (UserProfile.username h) [] o) as (F1 & F2 & _).
    pose proof (Hdepth_fl (u :: l) (UserProfile.username h) [] o) as F4.
    destruct (follower_loop _ _ _ _ _ (u :: l) _ _ o) as [o1 [found|e]];
      cbn [fst snd] in F1, F2, F4.
    + rewrite (F2 found eq_refl), app_nil_r.
      destruct (IH acc o1) as (I1 & I2 & _ & I4). split; [|split; [|split]].
      * eapply scanned_since_trans; eassumption.
      * exact I2.
      * intros Hb. lia.
      * rewrite I4. exact F4.
    + cbn [fst snd]. split; [exact F1|]. split; [discriminate|].
      split; [intros Hb; lia | exact F4].
Qed.

Lemma depth_loop_scanned (n : nat) (d : Z) (q all_hvts : list UserProfile.t) (o : t) :
  let r := depth_loop L W user filtering now n d q all_hvts o in
  scanned_since o (fst r)
  /\ (forall res, snd r = Returns res -> res = all_hvts)
  /\ (current_depth (fst r) = current_depth o
      \/ d <= current_depth (fst r) < d + Z.of_nat n)
  /\ (max_profiles user <= total_profiles_scanned o ->
      fetched (fst r) = fetched o /\ snd r = Returns all_hvts).
Proof.
  cbv zeta. revert d q all_hvts o.
  induction n as [|n IH]; intros d q all_hvts o; cbn [depth_loop].
  - cbn [fst snd]. split; [apply scanned_since_refl|]. split; [congruence|].
    split; [left; reflexivity | auto].
  - destruct (_ || should_stop o).
    { cbn [fst snd]. split; [apply scanned_since_refl|]. split; [congruence|].
      split; [left; reflexivity | auto]. }
    set (o0 := mk (should_stop o) (total_profiles_scanned o) (valid_profiles_processed o)
                  (hvts_found o) d (session o) (fetched o)).
    assert (H0 : scanned_since o o0).
    { exists []. unfold o0. cbn. rewrite app_nil_r, Z.add_0_r.
      repeat split; try reflexivity. symmetry. apply (left_id_L ∅ (∪)). }
    destruct (source_loop_scanned q [] o0) as (S1 & S2 & S3 & S4).
    destruct (source_loop L W user filtering now q [] o0) as [o1 [next|e]];
      cbn [fst snd] in S1, S2, S3, S4.
    + rewrite (S2 next eq_refl), app_nil_r.
      destruct (IH (d + 1) [] all_hvts o1) as (I1 & I2 & I3 & I4).
      split; [|split; [|split]].
      * eapply scanned_since_trans; [exact H0|].
        eapply scanned_since_trans; eassumption.
      * exact I2.
      * right. rewrite S4 in I3. unfold o0 in I3. cbn [current_depth] in I3.
        destruct I3 as [I3|I3]; lia.
      * intros Hb. specialize (S3 Hb).
        assert (E1 : o1 = o0) by congruence. rewrite E1 in *.
        destruct (I4 Hb) as [I5 I6]. split; [rewrite I5; reflexivity | exact I6].
    + cbn [fst snd]. split; [exact (scanned_since_trans _ _ _ H0 S1)|].
      split; [discriminate|]. split.
      * right. rewrite S4. unfold o0. cbn [current_depth]. lia.
      * intros Hb. specialize (S3 Hb). discriminate S3.
Qed.

End RunFacts.

Section RunSummary.
Import Py HunterOrchestrator.
Context (L : libraries) (W : web).
Context (user : user_filters) (filtering : ProfileFilter.t) (now : string).

Lemma find_initial_hvts_scanned (o : t) :
  scanned_since o (fst (find_initial_hvts L W user filtering now o))
  /\ (forall r, snd (find_initial_hvts L W user filtering now o) = Returns r -> r = [])
  /\ total_profiles_scanned (fst (find_initial_hvts L W user filtering now o))
     <= total_profiles_scanned o
        + Z.of_nat (length (profiles_from_hashtags W (seed_hashtags user))).
Proof.
  unfold find_initial_hvts.
  destruct (seed_hashtags user) as [|tag tags].
  { cbn [fst snd]. split; [apply scanned_since_refl|]. split; [congruence | lia]. }
  destruct (profiles_from_hashtags W (tag :: tags)) as [|u l] eqn:E.
  { cbn [fst snd]. split; [apply scanned_since_refl|]. split; [congruence | cbn; lia]. }
  apply seed_loop_scanned.
Qed.

Lemma run_scanned (o : t) :
  scanned_since o (fst (run_main_workflow L W user filtering now o)).
Proof.
  unfold run_main_workflow. cbn [fst].
  destruct (find_initial_hvts_scanned o) as (H1 & H2 & _).
  destruct (find_initial_hvts L W user filtering now o) as [o1 [hvts|e]];
    cbn [fst snd] in H1, H2; [|exact H1].
  rewrite (H2 hvts eq_refl).
  destruct (should_stop o1); [|exact H1].
  unfold recursive_follower_expansion.
  eapply scanned_since_trans; [exact H1|].
  apply (depth_loop_scanned L W user filtering now).
Qed.

End RunSummary.

(** X19.  A run never records an accepted profile: [create_hvt_profile]
    calls the [UserProfile] constructor without two of its required fields,
    so the call raises before [add_hvt] is reached.  The accepted list and
    the [hvts_found] counter are after the run what they were before it,
    the saved file holds the accepted list that was loaded, and the seed
    phase, when it returns, returns the empty list. *)
Theorem run_never_records_a_profile (L : libraries) (W : HunterOrchestrator.web)
  (user : user_filters) (filtering : ProfileFilter.t) (now : string)
  (o : HunterOrchestrator.t) :
  let r := HunterOrchestrator.run_main_workflow L W user filtering now o in
  SessionManager.discovered_hvts (HunterOrchestrator.session (fst r))
  = SessionManager.discovered_hvts (HunterOrchestrator.session o)
  /\ HunterOrchestrator.hvts_found (fst r) = HunterOrchestrator.hvts_found o
  /\ SessionManager.load_session now (snd r) = HunterOrchestrator.session (fst r)
  /\ (forall hvts,
        snd (HunterOrchestrator.find_initial_hvts L W user filtering now o)
        = Py.Returns hvts -> hvts = []).
Proof.
  cbv zeta.
  destruct (run_scanned L W user filtering now o) as (new & _ & _ & _ & Hd & Hh & _).
  split; [exact Hd|]. split; [exact Hh|]. split.
  - unfold HunterOrchestrator.run_main_workflow. cbn [snd fst]. apply load_of_save.
  - apply (find_initial_hvts_scanned L W user filtering now o).
Qed.

(** X20.  The orchestrator's scanned counter counts page fetches: over a
    run it grows by exactly the number of pages fetched, and the seen set
    grows by exactly the identifiers of those pages. *)
Theorem scanned_counter_counts_fetches (L : libraries) (W : HunterOrchestrator.web)
  (user : user_filters) (filtering : ProfileFilter.t) (now : string)
  (o : HunterOrchestrator.t) :
  let o' := fst (HunterOrchestrator.run_main_workflow L W user filtering now o) in
  exists new : list string,
    HunterOrchestrator.fetched o' = HunterOrchestrator.fetched o ++ new
    /\ HunterOrchestrator.total_profiles_scanned o'
       = HunterOrchestrator.total_profiles_scanned o + Z.of_nat (length new)
    /\ SessionManager.seen_profiles (HunterOrchestrator.session o')
       = list_to_set new ∪ SessionManager.seen_profiles (HunterOrchestrator.session o).
Proof.
  cbv zeta.
  destruct (run_scanned L W user filtering now o) as (new & H1 & H2 & H3 & _).
  exists new. auto.
Qed.

(** X21.  The scanned counter at the end of a run is at most the larger
    of the budget and the counter at start plus the number of seed
    usernames: the seed phase may fetch every seed, the expansion phase
    stops at the budget. *)
Theorem scanned_counter_bound (L : libraries) (W : HunterOrchestrator.web)
  (user : user_filters) (filtering : ProfileFilter.t) (now : string)
  (o : HunterOrchestrator.t) :
  HunterOrchestrator.total_profiles_scanned
    (fst (HunterOrchestrator.run_main_workflow L W user filtering now o))
  <= Z.max (max_profiles user)
       (HunterOrchestrator.total_profiles_scanned o
        + Z.of_nat (length (HunterOrchestrator.profiles_from_hashtags W
                              (seed_hashtags user)))).
Proof.
  unfold HunterOrchestrator.run_main_workflow. cbn [fst].
  destruct (find_initial_hvts_scanned L W user filtering now o) as (_ & _ & H3).
  destruct (HunterOrchestrator.find_initial_hvts L W user filtering now o)
    as [o1 [hvts|e]]; cbn [fst] in H3; [|lia].
  destruct hvts as [|h hvts].
  - destruct (HunterOrchestrator.should_stop o1); [|lia].
    pose proof (expansion_within_budget L W user filtering now [] o1). lia.
  - pose proof (expansion_within_budget L W user filtering now (h :: hvts) o1). lia.
Qed.

(** X22.  The expansion phase leaves [current_depth] as it was or sets it
    to a level between 1 and [max_depth]. *)
Theorem expansion_depth_bounded (L : libraries) (W : HunterOrchestrator.web)
  (user : user_filters) (filtering : ProfileFilter.t) (now : string)
  (initial_hvts : list UserProfile.t) (o : HunterOrchestrator.t) :
  let o' := fst (HunterOrchestrator.recursive_follower_expansion L W user filtering now
                   initial_hvts o) in
  HunterOrchestrator.current_depth o' = HunterOrchestrator.current_depth o
  \/ 1 <= HunterOrchestrator.current_depth o' <= max_depth user.
Proof.
  cbv zeta. unfold HunterOrchestrator.recursive_follower_expansion.
  destruct (depth_loop_scanned L W user filtering now (Z.to_nat (max_depth user)) 1
              initial_hvts initial_hvts o) as (_ & _ & [H|H] & _).
  - left. exact H.
  - right. lia.
Qed.

(** X23.  When the budget is already used up, the expansion phase fetches
    nothing and returns the list it was given; so it does for every budget
    when [max_depth] is not positive. *)
Theorem expansion_with_budget_spent (L : libraries) (W : HunterOrchestrator.web)
  (user : user_filters) (filtering : ProfileFilter.t) (now : string)
  (initial_hvts : list UserProfile.t) (o : HunterOrchestrator.t) :
  (max_profiles user <= HunterOrchestrator.total_profiles_scanned o ->
   let r := HunterOrchestrator.recursive_follower_expansion L W user filtering now
              initial_hvts o in
   HunterOrchestrator.fetched (fst r) = HunterOrchestrator.fetched o
   /\ snd r = Py.Returns initial_hvts)
  /\ (max_depth user <= 0 ->
      HunterOrchestrator.recursive_follower_expansion L W user filtering now
        initial_hvts o = (o, Py.Returns initial_hvts)).
Proof.
  split.
  - intros Hb. cbv zeta. unfold HunterOrchestrator.recursive_follower_expansion.
    apply (depth_loop_scanned L W user filtering now (Z.to_nat (max_depth user)) 1
             initial_hvts initial_hvts o). exact Hb.
  - intros Hd. unfold HunterOrchestrator.recursive_follower_expansion.
    replace (Z.to_nat (max_depth user)) with 0%nat by lia. reflexivity.
Qed.

Lemma expansion_with_budget_spent_witness :
  let user := default_filters [] [] 0 in
  let o := HunterOrchestrator.init "2026-01-01T00:00:00" SessionManager.Absent in
  HunterOrchestrator.fetched
    (fst (HunterOrchestrator.recursive_follower_expansion offline_libraries two_seed_web
            user template_filtering "2026-01-01T00:00:00" [sample_hvt] o)) = []
  /\ HunterOrchestrator.recursive_follower_expansion offline_libraries two_seed_web
       (mk_user_filters 1000 50000 50 [] [] ["usamoms"] 0 1000) template_filtering
       "2026-01-01T00:00:00" [sample_hvt] o
     = (o, Py.Returns [sample_hvt]).
Proof.
  cbv zeta. split.
  - apply (expansion_with_budget_spent offline_libraries two_seed_web
             (default_filters [] [] 0) template_filtering "2026-01-01T00:00:00"
             [sample_hvt]
             (HunterOrchestrator.init "2026-01-01T00:00:00" SessionManager.Absent)).
    cbn. lia.
  - apply (expansion_with_budget_spent offline_libraries two_seed_web
             (mk_user_filters 1000 50000 50 [] [] ["usamoms"] 0 1000)).
    cbn. lia.
Defined.

(** ** get_followers: limits, links *)

Section FollowerFacts.
Import Py GetFollowers.

Lemma split_length (sep : ascii) (s : string) : (1 <= length (split sep s))%nat.
Proof.
  induction s as [|c s IH]; cbn [split]; [cbn; lia|].
  destruct (Ascii.eqb c sep); [cbn; lia|].
  destruct (split sep s); cbn in *; lia.
Qed.

Lemma split_app_sep (sep : ascii) (a b : string) :
  split sep (a +:+ String sep b) = split sep a ++ split sep b.
Proof.
  induction a as [|c a IH].
  - change ("" +:+ String sep b) with (String sep b). cbn [split].
    rewrite Ascii.eqb_refl. reflexivity.
  - change (String c a +:+ String sep b) with (String c (a +:+ String sep b)).
    cbn [split]. rewrite IH. destruct (Ascii.eqb c sep); [reflexivity|].
    pose proof (split_length sep a) as Hl.
    destruct (split sep a) as [|f fs]; [cbn in Hl; lia | reflexivity].
Qed.

Lemma split_absent (sep : ascii) (s : string) :
  ~ In sep (list_ascii_of_string s) -> split sep s = [s].
Proof.
  induction s as [|c s IH]; intros H; [reflexivity|]. cbn in H. cbn [split].
  destruct (Ascii.eqb_spec c sep) as [->|Hne]; [tauto|].
  rewrite IH by tauto. reflexivity.
Qed.

Lemma endswith_cons (c x : ascii) (s : string) :
  endswith (String c "") (String x s)
  = match s with
    | EmptyString => Ascii.eqb x c
    | _ => endswith (String c "") s
    end.
Proof.
  unfold endswith. destruct s as [|y s].
  - cbn. destruct (Ascii.eqb x c); reflexivity.
  - cbn [String.length].
    replace (S (S (String.length s)) - 1)%nat with (S (String.length s)) by lia.
    replace (S (String.length s) - 1)%nat with (String.length s) by lia.
    cbn [String.substring Nat.leb]. reflexivity.
Qed.

Lemma endswith_app_char (c : ascii) (s : string) :
  endswith (String c "") (s +:+ String c "") = true.
Proof.
  induction s as [|x s IH].
  - change ("" +:+ String c "") with (String c ""). rewrite endswith_cons.
    apply Ascii.eqb_refl.
  - change (String x s +:+ String c "") with (String x (s +:+ String c "")).
    rewrite endswith_cons. destruct (s +:+ String c "") eqn:E; [|exact IH].
    destruct s; discriminate.
Qed.

Lemma endswith_absent (c : ascii) (p s : string) :
  s <> "" -> ~ In c (list_ascii_of_string s) ->
  endswith (String c "") (p +:+ s) = false.
Proof.
  intros Hne Hc. induction p as [|x p IH].
  - change ("" +:+ s) with s. induction s as [|y s IHs]; [contradiction|].
    rewrite endswith_cons. cbn in Hc. destruct s as [|z s].
    + destruct (Ascii.eqb_spec y c) as [->|H]; [tauto | reflexivity].
    + apply IHs; [discriminate | tauto].
  - change (String x p +:+ s) with (String x (p +:+ s)). rewrite endswith_cons.
    destruct (p +:+ s) eqn:E; [|exact IH].
    destruct p; [change ("" +:+ s) with s in E; contradiction | discriminate].
Qed.

Lemma nth_last_app (l : list string) (x : string) :
  nth (length (l ++ [x]) - 1) (l ++ [x]) "" = x.
Proof.
  rewrite length_app. cbn [length].
  replace (length l + 1 - 1)%nat with (length l) by lia.
  rewrite app_nth2 by lia. rewrite Nat.sub_diag. reflexivity.
Qed.

End FollowerFacts.

(** X24.  For a limit below 12 the scroll cap [limit // 12] is at most 0:
    the collection loop is never entered and [get_followers] returns the
    empty list whatever the followers dialog shows. *)
Theorem get_followers_small_limit (B : GetFollowers.browser) (fuel : nat) (limit : Z) :
  limit < 12 ->
  exists st, GetFollowers.get_followers B fuel limit = Some (st, [])
             /\ forall s, st = Some s -> GetFollowers.passes s = 0%nat.
Proof.
  intros Hl. unfold GetFollowers.get_followers.
  destruct (GetFollowers.dialog_opens B); [|exists None; split; [reflexivity | discriminate]].
  assert (Hloop : GetFollowers.scroll_loop B fuel limit (limit / GetFollowers.per_scroll)
                    (GetFollowers.mk_loop ∅ 0 0) = Some (GetFollowers.mk_loop ∅ 0 0)).
  { assert (Hg : (Z.of_nat (size (∅ : gset string)) <? limit)
                 && (0 <? limit / GetFollowers.per_scroll) = false).
    { rewrite size_empty. destruct (Z.ltb_spec (Z.of_nat 0) limit) as [Hp|Hp]; [|reflexivity].
      cbn [andb]. apply Z.ltb_ge. unfold GetFollowers.per_scroll.
      rewrite Z.div_small by lia. lia. }
    destruct fuel; cbn [GetFollowers.scroll_loop GetFollowers.followers
                        GetFollowers.scroll_attempts]; rewrite Hg; reflexivity. }
  rewrite Hloop. exists (Some (GetFollowers.mk_loop ∅ 0 0)).
  cbn [GetFollowers.followers]. rewrite elements_empty. split.
  - unfold GetFollowers.slice_to. destruct (0 <=? limit); rewrite take_nil; reflexivity.
  - intros s [= <-]. reflexivity.
Qed.

Lemma get_followers_small_limit_witness :
  exists st, GetFollowers.get_followers two_follower_browser 7 11 = Some (st, [])
             /\ forall s, st = Some s -> GetFollowers.passes s = 0%nat.
Proof. apply get_followers_small_limit. lia. Defined.

(** X25.  From a profile link, with or without a closing slash,
    [get_followers] takes the last path segment as the follower's
    identifier: ".../name/" and ".../name" both give "name". *)
Theorem username_from_profile_link (base name : string) :
  name <> "" ->
  ~ In "/"%char (list_ascii_of_string name) ->
  GetFollowers.username_from_href (base +:+ "/" +:+ name +:+ "/") = name
  /\ GetFollowers.username_from_href (base +:+ "/" +:+ name) = name.
Proof.
  intros Hne Hslash. unfold GetFollowers.username_from_href. split.
  - assert (E : base +:+ "/" +:+ name +:+ "/" = (base +:+ "/" +:+ name) +:+ "/")
      by (rewrite !string_app_assoc; reflexivity).
    rewrite E, endswith_app_char.
    change ((base +:+ "/" +:+ name) +:+ "/")
      with ((base +:+ "/" +:+ name) +:+ String "/" "").
    rewrite split_app_sep.
    change (base +:+ "/" +:+ name) with (base +:+ String "/" name).
    rewrite split_app_sep, (split_absent "/" name Hslash).
    cbn [Py.split]. rewrite !length_app. cbn [length].
    replace (length (Py.split "/" base) + 1 + 1 - 2)%nat
      with (length (Py.split "/" base)) by lia.
    rewrite <- app_assoc, app_nth2 by lia. rewrite Nat.sub_diag. reflexivity.
  - assert (He : Py.endswith "/" (base +:+ "/" +:+ name) = false).
    { rewrite <- string_app_assoc. apply endswith_absent; assumption. }
    rewrite He.
    change (base +:+ "/" +:+ name) with (base +:+ String "/" name).
    rewrite split_app_sep, (split_absent "/" name Hslash).
    apply nth_last_app.
Qed.

Lemma username_from_profile_link_witness :
  GetFollowers.username_from_href ("https://www.instagram.com" +:+ "/" +:+ "carol" +:+ "/")
  = "carol"
  /\ GetFollowers.username_from_href ("https://www.instagram.com" +:+ "/" +:+ "carol")
     = "carol".
Proof.
  apply username_from_profile_link; [discriminate|].
  cbn. intuition discriminate.
Defined.

(** X26.  Collecting the links of one scroll pass only adds to the set of
    followers, and never adds the empty identifier. *)
Theorem collect_only_adds (elements : list (option string)) (followers : gset string) :
  followers ⊆ GetFollowers.collect elements followers
  /\ ("" ∉ followers -> "" ∉ GetFollowers.collect elements followers).
Proof.
  revert followers. induction elements as [|[href|] rest IH]; intros followers;
    cbn [GetFollowers.collect].
  - split; [reflexivity | auto].
  - destruct (negb (String.eqb href "") && Py.contains "instagram.com/" href);
      [|apply IH].
    destruct (String.eqb_spec (GetFollowers.username_from_href href) "") as [E|E];
      cbn [negb]; [apply IH|].
    destruct (IH ({[GetFollowers.username_from_href href]} ∪ followers)) as [I1 I2].
    split.
    + intros x Hx. apply I1. apply elem_of_union. right. exact Hx.
    + intros Hn. apply I2. intros Hu. apply elem_of_union in Hu.
      destruct Hu as [Hu|Hu]; [|contradiction].
      apply elem_of_singleton in Hu. congruence.
  - apply IH.
Qed.

Lemma collect_only_adds_witness :
  "" ∉ GetFollowers.collect
         [Some "https://www.instagram.com/carol/"; Some "https://www.instagram.com//"]
         (∅ : gset string).
Proof.
  apply (collect_only_adds
           [Some "https://www.instagram.com/carol/"; Some "https://www.instagram.com//"] ∅).
  apply not_elem_of_empty.
Defined.

(** ** BioAnalyzer: keyword heuristics *)

Section BioFacts.
Import Py BioAnalyzer.

Lemma count_in_pos (keywords : list string) (k text : string) :
  In k keywords -> contains k text = true -> 1 <= count_in keywords text.
Proof.
  intros Hin Hk. unfold count_in.
  assert (H : k ∈ filter (fun k => contains k text = true) keywords).
  { apply list_elem_of_filter. split; [exact Hk | apply list_elem_of_In; exact Hin]. }
  destruct (filter (fun k => contains k text = true) keywords) as [|x l].
  - apply elem_of_nil in H. contradiction.
  - cbn [length]. lia.
Qed.

Lemma topic_detected (topic keyword : string) (keywords : list string) (bio : string) :
  In (topic, keywords) topic_keywords ->
  In keyword keywords ->
  contains keyword (lower bio) = true ->
  In topic (extract_topics bio).
Proof.
  intros Ht Hk Hc. unfold extract_topics.
  apply (in_map fst _ (topic, keywords)). apply list_elem_of_In.
  apply list_elem_of_filter. split; [|apply list_elem_of_In; exact Ht].
  cbn [snd]. exact (any_in_witness keywords keyword (lower bio) Hk Hc).
Qed.

End BioFacts.

(** X27.  [estimate_gender] matches its indicators as substrings, and
    "woman" has "man" among its letters: a bio that mentions "woman" and no
    other female indicator scores at least as high on the male side, so it
    is never estimated 'female'. *)
Theorem woman_alone_is_not_female (bio : string) :
  Py.contains "woman" (Py.lower bio) = true ->
  Py.count_in BioAnalyzer.female_indicators (Py.lower bio) = 1 ->
  BioAnalyzer.estimate_gender bio <> "female".
Proof.
  intros Hw Hf. unfold BioAnalyzer.estimate_gender. cbv zeta. rewrite Hf.
  assert (Hm : 1 <= Py.count_in BioAnalyzer.male_indicators (Py.lower bio)).
  { apply (count_in_pos BioAnalyzer.male_indicators "man").
    - unfold BioAnalyzer.male_indicators. simpl. tauto.
    - exact (contains_trans "man" "woman" (Py.lower bio) eq_refl Hw). }
  destruct (Z.ltb_spec (Py.count_in BioAnalyzer.male_indicators (Py.lower bio)) 1);
    [lia|].
  destruct (1 <? Py.count_in BioAnalyzer.male_indicators (Py.lower bio)); discriminate.
Qed.

Lemma woman_alone_is_not_female_witness :
  BioAnalyzer.estimate_gender "Strong Woman" <> "female".
Proof. apply woman_alone_is_not_female; reflexivity. Defined.

(** X28.  [extract_topics] matches its keywords as substrings too: "art"
    occurs inside "startup" and "design" inside "designer", so a bio that
    mentions a startup is filed under 'tech', 'art' and 'business', and one
    that mentions a designer under 'fashion' and 'art'. *)
Theorem extract_topics_overlap (bio : string) :
  (Py.contains "startup" (Py.lower bio) = true ->
   In "tech" (BioAnalyzer.extract_topics bio)
   /\ In "art" (BioAnalyzer.extract_topics bio)
   /\ In "business" (BioAnalyzer.extract_topics bio))
  /\ (Py.contains "designer" (Py.lower bio) = true ->
      In "fashion" (BioAnalyzer.extract_topics bio)
      /\ In "art" (BioAnalyzer.extract_topics bio)).
Proof.
  split.
  - intros H. repeat split.
    + apply (topic_detected "tech" "startup" _ bio ltac:(simpl; tauto) ltac:(simpl; tauto) H).
    + apply (topic_detected "art" "art" _ bio ltac:(simpl; tauto) ltac:(simpl; tauto)).
      exact (contains_trans "art" "startup" (Py.lower bio) eq_refl H).
    + apply (topic_detected "business" "startup" _ bio
               ltac:(simpl; tauto) ltac:(simpl; tauto) H).
  - intros H. split.
    + apply (topic_detected "fashion" "designer" _ bio
               ltac:(simpl; tauto) ltac:(simpl; tauto) H).
    + apply (topic_detected "art" "design" _ bio ltac:(simpl; tauto) ltac:(simpl; tauto)).
      exact (contains_trans "design" "designer" (Py.lower bio) eq_refl H).
Qed.

Lemma extract_topics_overlap_witness :
  (In "tech" (BioAnalyzer.extract_topics "Startup founder")
   /\ In "art" (BioAnalyzer.extract_topics "Startup founder")
   /\ In "business" (BioAnalyzer.extract_topics "Startup founder"))
  /\ (In "fashion" (BioAnalyzer.extract_topics "Shoe designer")
      /\ In "art" (BioAnalyzer.extract_topics "Shoe designer")).
Proof.
  split.
  - apply (proj1 (extract_topics_overlap "Startup founder")). vm_compute. reflexivity.
  - apply (proj2 (extract_topics_overlap "Shoe designer")). vm_compute. reflexivity.
Defined.

(** ** SessionManager: the seen set and the session file *)

(** X29.  A profile marked as seen is still seen after the session has been
    saved and loaded again, and marking one profile changes the answer for
    no other. *)
Theorem seen_profile_persists (now u v : string) (s : SessionManager.session_data) :
  SessionManager.is_profile_seen v
    (SessionManager.load_session now
       (SessionManager.save_session (SessionManager.add_seen_profile u s)))
  = bool_decide (v = u) || SessionManager.is_profile_seen v s.
Proof.
  rewrite load_of_save. unfold SessionManager.is_profile_seen,
    SessionManager.add_seen_profile. cbn [SessionManager.seen_profiles].
  destruct (decide (v = u)) as [->|Hne].
  - rewrite (bool_decide_eq_true_2 (u = u) eq_refl). cbn [orb].
    apply bool_decide_eq_true_2. apply elem_of_union. left. apply elem_of_singleton.
    reflexivity.
  - rewrite (bool_decide_eq_false_2 (v = u) Hne). cbn [orb].
    apply bool_decide_ext. rewrite elem_of_union, elem_of_singleton. tauto.
Qed.

(** X30.  Loading a session file and saving it again keeps every field and
    the members of the seen list, and leaves the seen list without
    repetitions, whatever repetitions the file had. *)
Theorem load_then_save_normalises (now : string) (j : SessionManager.session_json) :
  let j' := SessionManager.session_copy (SessionManager.load_session now (SessionManager.Json j)) in
  NoDup (SessionManager.j_seen_profiles j')
  /\ (forall u, u ∈ SessionManager.j_seen_profiles j' <-> u ∈ SessionManager.j_seen_profiles j)
  /\ SessionManager.j_discovered_hvts j' = SessionManager.j_discovered_hvts j
  /\ SessionManager.j_current_depth j' = SessionManager.j_current_depth j
  /\ SessionManager.j_processing_queue j' = SessionManager.j_processing_queue j
  /\ SessionManager.j_session_start j' = SessionManager.j_session_start j
  /\ SessionManager.j_total_profiles_scanned j' = SessionManager.j_total_profiles_scanned j
  /\ SessionManager.j_errors_encountered j' = SessionManager.j_errors_encountered j.
Proof.
  cbv zeta. cbn [SessionManager.load_session SessionManager.session_copy
                 SessionManager.j_seen_profiles SessionManager.seen_profiles
                 SessionManager.j_discovered_hvts SessionManager.discovered_hvts
                 SessionManager.j_current_depth SessionManager.current_depth
                 SessionManager.j_processing_queue SessionManager.processing_queue
                 SessionManager.j_session_start SessionManager.session_start
                 SessionManager.j_total_profiles_scanned SessionManager.total_profiles_scanned
                 SessionManager.j_errors_encountered SessionManager.errors_encountered].
  split; [apply NoDup_elements|].
  split; [intros u; rewrite elem_of_elements, elem_of_list_to_set; reflexivity|].
  repeat split.
Qed.
